(** * AzureMLChat: the response pipeline of the three chat front ends

    A shallow embedding of [src/chat.py], [src/utils.py] and of the
    [ChatApp] classes of [LV1_nonstreaming_ui.py], [LV2_streaming_ui.py]
    and [LV3_realtime_httplog_streaming_ui.py].

    Python values are dynamically typed, so the values that flow through
    the pipeline (decoded JSON bodies, history entries, request payloads)
    live in one universe [pyval].  The two history lists are Python lists
    that the methods mutate in place: they are the [store].  A generator
    is a resumable state machine driven by [next]. Console logging
    ([log_message]) and the pacing [time.sleep] have no effect on any
    value and are left out. *)

From Stdlib Require Import Ascii String DecimalString.
From Stdlib Require Import List ZArith NArith Bool Lia.
Import ListNotations.

Set Warnings "-register-all".
Local Open Scope list_scope.

(** ** Python strings *)

(** A Python [str] is a sequence of Unicode code points; [len] and
    iteration count code points. *)
Definition pychar := N.
Definition pystr := list pychar.

(** An ASCII literal of the source. *)
Definition str (s : string) : pystr :=
  map N_of_ascii (list_ascii_of_string s).

(** The markup literals of [utils.py] are full of double quotes; they are
    written here with an apostrophe in place of each double quote (the
    source literals contain no apostrophe) and [markup] puts the double
    quotes back. *)
Definition markup (s : string) : pystr :=
  map (fun c => if N.eqb c 39 then 34%N else c) (str s).

Definition pystr_eqb (a b : pystr) : bool :=
  if list_eq_dec N.eq_dec a b then true else false.

(** [str(n)] for a Python int. *)
Definition str_of_int (z : Z) : pystr :=
  str (NilEmpty.string_of_int (Z.to_int z)).

(** ** Python values *)

(** The JSON-shaped fragment of Python's values.  A [dict] keeps its
    insertion order (which [json.dumps] prints), so it is an association
    list; its keys are strings and pairwise distinct.  A float is kept as
    the text Python prints for it ([1.5], [0.0], [1e+16], and in JSON
    [NaN] and [Infinity] for the values that are no numbers): no
    arithmetic is ever done on one. *)
Inductive pyval : Type :=
| PNone
| PBool (b : bool)
| PInt (z : Z)
| PFloat (repr : pystr)
| PStr (s : pystr)
| PList (l : list pyval)
| PDict (d : list (pystr * pyval)).

Definition pydict := list (pystr * pyval).

(** [d.get(key, default)] *)
Fixpoint dict_get (d : pydict) (key : pystr) (default : pyval) : pyval :=
  match d with
  | [] => default
  | (k, v) :: d' => if pystr_eqb k key then v else dict_get d' key default
  end.

(** [key in d] *)
Fixpoint dict_has (d : pydict) (key : pystr) : bool :=
  match d with
  | [] => false
  | (k, _) :: d' => pystr_eqb k key || dict_has d' key
  end.

(** Truth value of an object, as [not], [or] and [if] test it. *)
Definition truthy (v : pyval) : bool :=
  match v with
  | PNone => false
  | PBool b => b
  | PInt z => negb (Z.eqb z 0)
  | PFloat r => negb (pystr_eqb r (str "0.0") || pystr_eqb r (str "-0.0"))
  | PStr s => match s with [] => false | _ => true end
  | PList l => match l with [] => false | _ => true end
  | PDict d => match d with [] => false | _ => true end
  end.

(** The exceptions that can leave the modelled code. *)
Inductive exn : Type :=
| AttributeError
| TypeError
| ValidationError.

Inductive result (A : Type) : Type :=
| Ok (a : A)
| Raise (e : exn).
Arguments Ok {A} a.
Arguments Raise {A} e.

(** The items a [for] loop draws from an object: the characters of a
    string, the elements of a list, the keys of a dict; anything else is
    not iterable. *)
Definition iter (v : pyval) : result (list pyval) :=
  match v with
  | PStr s => Ok (map (fun c => PStr [c]) s)
  | PList l => Ok l
  | PDict d => Ok (map (fun kv => PStr (fst kv)) d)
  | _ => Raise TypeError
  end.

(** ** json.dumps(obj, indent=4, ensure_ascii=False) *)

Module Json.

Definition hex_digit (n : N) : pychar :=
  (if n <? 10 then 48 + n else 87 + n)%N.

(** One character inside a JSON string: the two-character escapes, then
    [\u00xx] for the other control characters, everything else as it is
    ([ensure_ascii=False]). *)
Definition escape_char (c : pychar) : pystr :=
  if N.eqb c 34 then str "\" ++ [34%N]
  else if N.eqb c 92 then str "\\"
  else if N.eqb c 10 then str "\n"
  else if N.eqb c 13 then str "\r"
  else if N.eqb c 9 then str "\t"
  else if N.eqb c 8 then str "\b"
  else if N.eqb c 12 then str "\f"
  else if (c <? 32)%N then
    str "\u00" ++ [hex_digit (c / 16); hex_digit (c mod 16)]
  else [c].

Definition encode_string (s : pystr) : pystr :=
  [34%N] ++ flat_map escape_char s ++ [34%N].

(** A line break followed by the indentation of nesting depth [level]. *)
Definition newline_indent (level : nat) : pystr :=
  [10%N] ++ repeat 32%N (4 * level).

Fixpoint encode (level : nat) (v : pyval) {struct v} : pystr :=
  match v with
  | PNone => str "null"
  | PBool true => str "true"
  | PBool false => str "false"
  | PInt z => str_of_int z
  | PFloat r => r
  | PStr s => encode_string s
  | PList [] => str "[]"
  | PList (x :: xs) =>
      str "[" ++ newline_indent (S level) ++ encode (S level) x
      ++ (fix items (l : list pyval) : pystr :=
            match l with
            | [] => []
            | y :: l' =>
                str "," ++ newline_indent (S level) ++ encode (S level) y
                ++ items l'
            end) xs
      ++ newline_indent level ++ str "]"
  | PDict [] => str "{}"
  | PDict ((k, x) :: xs) =>
      str "{" ++ newline_indent (S level)
      ++ encode_string k ++ str ": " ++ encode (S level) x
      ++ (fix items (l : pydict) : pystr :=
            match l with
            | [] => []
            | (k', y) :: l' =>
                str "," ++ newline_indent (S level)
                ++ encode_string k' ++ str ": " ++ encode (S level) y
                ++ items l'
            end) xs
      ++ newline_indent level ++ str "}"
  end.

Definition dumps (obj : pyval) : pystr := encode 0 obj.

End Json.

(** ** src/chat.py: the response envelopes *)

(** pydantic checks every field of a model against its annotation when
    the model is built and stores fresh copies of the containers, so an
    envelope is a snapshot.  [List[Dict[str, str | Dict]]]: a list of
    dicts whose values are strings or dicts; any other value makes the
    constructor raise [ValidationError]. *)
Definition field_ok (v : pyval) : bool :=
  match v with
  | PStr _ | PDict _ => true
  | _ => false
  end.

Definition entry_ok (v : pyval) : bool :=
  match v with
  | PDict d => forallb (fun kv => field_ok (snd kv)) d
  | _ => false
  end.

Definition history_ok (l : list pyval) : bool := forallb entry_ok l.

Module AISimpleResponse.
Record t : Type := Build {
  bot_message : pystr;
  chat_history : list pyval;
  chat_history_for_ml : list pyval
}.

Definition make (bot_message : pystr)
    (chat_history chat_history_for_ml : list pyval) : result t :=
  if history_ok chat_history && history_ok chat_history_for_ml
  then Ok (Build bot_message chat_history chat_history_for_ml)
  else Raise ValidationError.
End AISimpleResponse.

Module AICustomResponse.
Record t : Type := Build {
  bot_message : pystr;
  chat_history : list pyval;
  chat_history_for_ml : list pyval;
  call_history : pystr;
  call_log_md_display : pystr;
  call_count : Z
}.

Definition make (bot_message : pystr)
    (chat_history chat_history_for_ml : list pyval)
    (call_history call_log_md_display : pystr) (call_count : Z)
  : result t :=
  if history_ok chat_history && history_ok chat_history_for_ml
  then Ok (Build bot_message chat_history chat_history_for_ml
             call_history call_log_md_display call_count)
  else Raise ValidationError.
End AICustomResponse.

(** ** The endpoint, as [requests] shows it *)

(** What [requests.post] hands back: the status line and the body.
    [json_body = None] is a body that [response.json()] cannot decode. *)
Record Response : Type := {
  status_code : Z;
  reason : pystr;
  json_body : option pyval
}.

(** [response.raise_for_status()] raises [HTTPError] on a 4xx or 5xx
    status and on no other. *)
Definition raise_for_status (r : Response) : bool :=
  (400 <=? status_code r)%Z && (status_code r <? 600)%Z.

(** The remote service: from the URL, the JSON payload and the headers
    of a POST to the response it sends.  A request that gets no response
    at all (no connection, a timeout) makes [requests.post] itself raise,
    outside the [try] of [exec_api]; the model starts from a response. *)
Definition endpoint : Type :=
  pystr -> pyval -> list (pystr * pystr) -> Response.

(** ** src/chat.py: BaseChatApp *)

(** The attributes that [setup_endpoint] and [setup_deployment] leave on
    the object. *)
Record BaseChatApp : Type := {
  _endpoint_url : pystr;
  _endpoint_key : pystr;
  protocol : pystr;
  host : pystr;
  path : pystr;
  _endpoint_name : pystr;
  _deployment_name : pystr
}.

(** The object [exec_api] returns: [None], or a tuple of three. *)
Inductive api_result : Type :=
| ApiNone
| ApiTuple (res_json : pyval) (res_status_code : option Z)
           (res_status_reason : option pystr).

(** [not result] is true of [None] only: a tuple of three items is a
    non-empty tuple, whatever the items are. *)
Definition api_truthy (r : api_result) : bool :=
  match r with
  | ApiNone => false
  | ApiTuple _ _ _ => true
  end.

Section ExecApi.
Variable requests_post : endpoint.
Variable self : BaseChatApp.

Definition request_payload (msg : pystr) (chat_history_for_ml : list pyval)
  : pyval :=
  PDict [(str "question", PStr msg);
         (str "chat_history", PList chat_history_for_ml)].

Definition request_headers : list (pystr * pystr) :=
  [(str "Content-Type", str "application/json");
   (str "Authorization", str "Bearer " ++ _endpoint_key self);
   (str "azureml-model-deployment", _deployment_name self);
   (str "Accept", str "application/json")].

Definition exec_api (msg : pystr) (chat_history_for_ml : list pyval)
  : api_result :=
  let payload := request_payload msg chat_history_for_ml in
  let headers := request_headers in
  let response := requests_post (_endpoint_url self) payload headers in
  if raise_for_status response then
    (* except requests.HTTPError *)
    ApiNone
  else
    match json_body response with
    | Some body =>
        ApiTuple body (Some (status_code response)) (Some (reason response))
    | None =>
        (* except requests.exceptions.JSONDecodeError *)
        ApiTuple PNone None None
    end.
End ExecApi.

(** [obj.get(key, default)]: only a dict has the method. *)
Definition call_get (obj : pyval) (key : pystr) (default : pyval)
  : result pyval :=
  match obj with
  | PDict d => Ok (dict_get d key default)
  | _ => Raise AttributeError
  end.

(** ** src/utils.py *)

Definition format_http_log (call_history : pystr) : pystr :=
  markup "
<head>
    <!-- Prism.js -->
    <link rel='stylesheet' href='https://cdnjs.cloudflare.com/ajax/libs/prism/1.29.0/themes/prism-tomorrow.min.css'>
    <script src='https://cdnjs.cloudflare.com/ajax/libs/prism/1.29.0/components/prism-core.min.js'></script>
    <!-- Prism.js additional Plugin -->
    <script src='https://cdnjs.cloudflare.com/ajax/libs/prism/1.29.0/plugins/autoloader/prism-autoloader.min.js'></script>
    <script src='https://cdnjs.cloudflare.com/ajax/libs/prism/1.29.0/plugins/normalize-whitespace/prism-normalize-whitespace.min.js'></script>
</head>

<body>
    " ++ call_history ++ markup "
</body>
        ".

(** How an f-string prints a value that may be [None]. *)
Definition fmt_opt {A : Type} (f : A -> pystr) (o : option A) : pystr :=
  match o with
  | Some a => f a
  | None => str "None"
  end.

(** The line of the log entry that stands for the Authorization header. *)
Definition masked_authorization : pystr :=
  markup "<span class='token header'><span class='token header-name keyword'>Authorization</span><span class='token punctuation'>: </span><span class='token header-value'>Bearer &lt; MASKED_APIKey &gt;</span></span>".

Definition create_http_log (call_count : Z) (_cls : BaseChatApp)
    (jinput joutput : pyval) (res_status_code : option Z)
    (res_status_reason : option pystr) : pystr :=
  markup "
<span style='color: orange;'>#" ++ str_of_int call_count ++ markup " API Request</span>
<pre class='language-http' tabindex='0'>
<span class='token request-line'><span class='token method property'>POST </span><span class='token request-target url'>" ++ path _cls ++ markup " </span><span class='token http-version property'>" ++ protocol _cls ++ markup "</span></span>
<span class='token header'><span class='token header-name keyword'>Host</span><span class='token punctuation'>: </span><span class='token header-value'>" ++ host _cls ++ markup "</span></span>
<span class='token header'><span class='token header-name keyword'>Accept</span><span class='token punctuation'>: </span><span class='token header-value'>application/json</span></span>
" ++ masked_authorization ++ markup "
<span class='token header'><span class='token header-name keyword'>azureml-model-deployment</span><span class='token punctuation'>: </span><span class='token header-value'>" ++ _deployment_name _cls ++ markup "</span></span>
<span class='token header'><span class='token header-name keyword'>Content-Type</span><span class='token punctuation'>: </span><span class='token header-value'>application/json</span></span>

" ++ Json.dumps jinput ++ markup "
</pre>

<span style='color: orange;'>#" ++ str_of_int call_count ++ markup " Response</span>
<pre class='language-http' tabindex='0'>
<span class='token response-status'><span class='token http-version property'>HTTP/1.1 </span><span class='token status-code number'>" ++ fmt_opt str_of_int res_status_code ++ markup " </span><span class='token reason-phrase string'>" ++ fmt_opt (fun s => s) res_status_reason ++ markup "</span></span>
<span class='token header'><span class='token header-name keyword'>Content-Type</span><span class='token punctuation'>: </span><span class='token header-value'>application/json</span></span>

" ++ Json.dumps joutput ++ markup "
</pre>
<hr>
    ".

(** ** The mutable lists and the statements that act on them *)

(** The two list objects the presentation surface passes to a method.
    [append] changes them in place, so what a method did to them is
    visible to the caller whatever the method returns or raises. *)
Record session : Type := {
  s_chat_history : list pyval;
  s_chat_history_for_ml : list pyval
}.

(** A block of statements: it may change the lists, and it either
    produces a value or raises. *)
Definition py (A : Type) : Type := session -> result A * session.

Definition ret {A : Type} (a : A) : py A := fun s => (Ok a, s).

Definition raise {A : Type} (e : exn) : py A := fun s => (Raise e, s).

Definition lift {A : Type} (r : result A) : py A := fun s => (r, s).

Definition bind {A B : Type} (c : py A) (k : A -> py B) : py B :=
  fun s =>
    match c s with
    | (Ok a, s') => k a s'
    | (Raise e, s') => (Raise e, s')
    end.

Declare Scope py_scope.
Delimit Scope py_scope with py.
Notation "x <- c ;; k" := (bind c (fun x => k))
  (at level 61, c at next level, right associativity) : py_scope.
Notation "c ;; k" := (bind c (fun _ => k))
  (at level 61, right associativity) : py_scope.
Local Open Scope py_scope.

Definition chat_history : py (list pyval) :=
  fun s => (Ok (s_chat_history s), s).

Definition chat_history_for_ml : py (list pyval) :=
  fun s => (Ok (s_chat_history_for_ml s), s).

(** [chat_history.append(x)] *)
Definition chat_history_append (x : pyval) : py unit :=
  fun s =>
    (Ok tt, {| s_chat_history := s_chat_history s ++ [x];
               s_chat_history_for_ml := s_chat_history_for_ml s |}).

(** [chat_history_for_ml.append(x)] *)
Definition chat_history_for_ml_append (x : pyval) : py unit :=
  fun s =>
    (Ok tt, {| s_chat_history := s_chat_history s;
               s_chat_history_for_ml := s_chat_history_for_ml s ++ [x] |}).

(** The dict literals of the three methods. *)
Definition turn (role : string) (content : pyval) : pyval :=
  PDict [(str "role", PStr (str role)); (str "content", content)].

Definition ml_turn (msg : pystr) (bot_message : pyval) : pyval :=
  PDict [(str "inputs", PDict [(str "question", PStr msg)]);
         (str "outputs", bot_message)].

Definition EMPTY : pyval := PStr (str "<EMPTY>").

(** [x + y] where [x] is a string: defined for a string [y] only. *)
Definition str_add (x : pystr) (y : pyval) : result pystr :=
  match y with
  | PStr s => Ok (x ++ s)
  | _ => Raise TypeError
  end.

(** [a or b] *)
Definition py_or (a b : pyval) : pyval := if truthy a then a else b.

(** ** Generators *)

(** What one [next()] on a generator gives: the value of the [yield] it
    ran into, or the end of the body ([StopIteration]). *)
Inductive event (E : Type) : Type :=
| Yielded (e : E)
| Stop.
Arguments Yielded {E} e.
Arguments Stop {E}.

(** The run of a consumer loop [for response in generator]: the values it
    received in order, how the loop ended ([None]: it is still running
    when the fuel is used up) and the lists as the run left them. *)
Record run (E : Type) : Type := {
  emitted : list E;
  outcome : option (result unit);
  after : session
}.
Arguments emitted {E} r.
Arguments outcome {E} r.
Arguments after {E} r.

Section Consumer.
Variables G E : Type.
Variable next : G -> session -> result (event E) * G * session.

Fixpoint consume (fuel : nat) (g : G) (s : session) : run E :=
  match fuel with
  | O => {| emitted := []; outcome := None; after := s |}
  | S fuel' =>
      match next g s with
      | (Ok (Yielded e), g', s') =>
          let r := consume fuel' g' s' in
          {| emitted := e :: emitted r;
             outcome := outcome r;
             after := after r |}
      | (Ok Stop, _, s') =>
          {| emitted := []; outcome := Some (Ok tt); after := s' |}
      | (Raise x, _, s') =>
          {| emitted := []; outcome := Some (Raise x); after := s' |}
      end
  end.
End Consumer.
Arguments consume {G E} next fuel g s.

(** ** LV1_nonstreaming_ui.py *)

Module LV1_nonstreaming_ui.
Section ChatApp.
Variable requests_post : endpoint.
Variable self : BaseChatApp.

(** [None] in the result is the value of the bare [return]. *)
Definition respond_simple (msg : pystr) : py (option AISimpleResponse.t) :=
  ml <- chat_history_for_ml ;;
  let result := exec_api requests_post self msg ml in
  if negb (api_truthy result) then
    ret None
  else
    match result with
    | ApiNone => raise TypeError
    | ApiTuple res_json _ _ =>
        bot_message <- lift (call_get res_json (str "answer") EMPTY) ;;
        chat_history_append (turn "user" (PStr msg)) ;;
        chat_history_append (turn "assistant" bot_message) ;;
        chat_history_for_ml_append (ml_turn msg bot_message) ;;
        ch <- chat_history ;;
        ml <- chat_history_for_ml ;;
        response <- lift (AISimpleResponse.make [] ch ml) ;;
        ret (Some response)
    end.

(** The handler the text box is wired to: it reads the three fields of
    what [respond_simple] returned; [None] has none of them. *)
Definition handle_response (msg : pystr)
  : py (pystr * list pyval * list pyval) :=
  response <- respond_simple msg ;;
  match response with
  | Some r =>
      ret (AISimpleResponse.bot_message r,
           AISimpleResponse.chat_history r,
           AISimpleResponse.chat_history_for_ml r)
  | None => raise AttributeError
  end.
End ChatApp.
End LV1_nonstreaming_ui.

(** ** LV2_streaming_ui.py *)

Module LV2_streaming_ui.

(** Where the generator made by [respond_stream] is standing: not started
    yet, at the [yield] of the failure branch, at the [yield] inside the
    [for] loop (with the text revealed so far in [response] and the items
    the loop has still to draw), or past its end. *)
Inductive generator : Type :=
| Created (msg : pystr)
| AtFailureYield
| AtLoopYield (content : pystr) (rest : list pyval)
| Finished.

Section ChatApp.
Variable requests_post : endpoint.
Variable self : BaseChatApp.

(** Calling the generator function runs none of its body. *)
Definition respond_stream (msg : pystr) : generator := Created msg.

(** The [for message in bot_message] loop from its head up to the next
    [yield]. *)
Definition loop (content : pystr) (items : list pyval)
  : py (event AISimpleResponse.t * generator) :=
  match items with
  | [] => ret (Stop, Finished)
  | message :: rest =>
      content' <- lift (str_add content (py_or message (PStr []))) ;;
      ch <- chat_history ;;
      ml <- chat_history_for_ml ;;
      response <- lift (AISimpleResponse.make []
                          (removelast ch
                           ++ [turn "assistant" (PStr content')]) ml) ;;
      ret (Yielded response, AtLoopYield content' rest)
  end.

Definition resume (g : generator)
  : py (event AISimpleResponse.t * generator) :=
  match g with
  | Created msg =>
      ml <- chat_history_for_ml ;;
      let result := exec_api requests_post self msg ml in
      if negb (api_truthy result) then
        ch <- chat_history ;;
        ml <- chat_history_for_ml ;;
        response <- lift (AISimpleResponse.make [] ch ml) ;;
        ret (Yielded response, AtFailureYield)
      else
        match result with
        | ApiNone => raise TypeError
        | ApiTuple res_json _ _ =>
            bot_message <- lift (call_get res_json (str "answer") EMPTY) ;;
            chat_history_append (turn "user" (PStr msg)) ;;
            chat_history_append (turn "assistant" bot_message) ;;
            chat_history_for_ml_append (ml_turn msg bot_message) ;;
            items <- lift (iter bot_message) ;;
            loop [] items
        end
  | AtFailureYield => ret (Stop, Finished)
  | AtLoopYield content rest => loop content rest
  | Finished => ret (Stop, Finished)
  end.

(** [next(g)]: an exception that leaves the body ends the generator. *)
Definition next (g : generator) (s : session)
  : result (event AISimpleResponse.t) * generator * session :=
  match resume g s with
  | (Ok (ev, g'), s') => (Ok ev, g', s')
  | (Raise e, s') => (Raise e, Finished, s')
  end.

(** The loop of [handle_response] over
    [respond_stream(msg, chat_history, chat_history_for_ml)]. *)
Definition run_stream (fuel : nat) (msg : pystr) (s : session)
  : run AISimpleResponse.t :=
  consume next fuel (respond_stream msg) s.
End ChatApp.
End LV2_streaming_ui.

(** ** LV3_realtime_httplog_streaming_ui.py *)

Module LV3_realtime_httplog_streaming_ui.

(** The generator is annotated with [AICustomResponse] but its failure
    branch yields an [AISimpleResponse]. *)
Inductive envelope : Type :=
| Simple (r : AISimpleResponse.t)
| Custom (r : AICustomResponse.t).

Inductive generator : Type :=
| Created (msg call_history call_log_md_display : pystr) (call_count : Z)
| AtFailureYield
| AtLoopYield (content : pystr) (rest : list pyval)
              (call_history call_log_md_display : pystr) (call_count : Z)
| Finished.

Section ChatApp.
Variable requests_post : endpoint.
Variable self : BaseChatApp.

Definition respond_stream
    (msg call_history call_log_md_display : pystr) (call_count : Z)
  : generator :=
  Created msg call_history call_log_md_display call_count.

Definition loop (content : pystr) (items : list pyval)
    (call_history call_log_md_display : pystr) (call_count : Z)
  : py (event envelope * generator) :=
  match items with
  | [] => ret (Stop, Finished)
  | message :: rest =>
      content' <- lift (str_add content (py_or message (PStr []))) ;;
      ch <- chat_history ;;
      ml <- chat_history_for_ml ;;
      response <- lift (AICustomResponse.make []
                          (removelast ch
                           ++ [turn "assistant" (PStr content')]) ml
                          call_history call_log_md_display call_count) ;;
      ret (Yielded (Custom response),
           AtLoopYield content' rest
             call_history call_log_md_display call_count)
  end.

Definition resume (g : generator) : py (event envelope * generator) :=
  match g with
  | Created msg call_history call_log_md_display call_count =>
      ml <- chat_history_for_ml ;;
      let result := exec_api requests_post self msg ml in
      if negb (api_truthy result) then
        ch <- chat_history ;;
        ml <- chat_history_for_ml ;;
        response <- lift (AISimpleResponse.make [] ch ml) ;;
        ret (Yielded (Simple response), AtFailureYield)
      else
        match result with
        | ApiNone => raise TypeError
        | ApiTuple res_json res_status_code res_status_reason =>
            ml <- chat_history_for_ml ;;
            let payload := request_payload msg ml in
            let call_count := (call_count + 1)%Z in
            let call_history :=
              call_history
              ++ create_http_log call_count self payload res_json
                   res_status_code res_status_reason in
            let call_log_md_display := format_http_log call_history in
            bot_message <- lift (call_get res_json (str "answer") EMPTY) ;;
            chat_history_append (turn "user" (PStr msg)) ;;
            chat_history_append (turn "assistant" bot_message) ;;
            chat_history_for_ml_append (ml_turn msg bot_message) ;;
            items <- lift (iter bot_message) ;;
            loop [] items call_history call_log_md_display call_count
        end
  | AtFailureYield => ret (Stop, Finished)
  | AtLoopYield content rest call_history call_log_md_display call_count =>
      loop content rest call_history call_log_md_display call_count
  | Finished => ret (Stop, Finished)
  end.

Definition next (g : generator) (s : session)
  : result (event envelope) * generator * session :=
  match resume g s with
  | (Ok (ev, g'), s') => (Ok ev, g', s')
  | (Raise e, s') => (Raise e, Finished, s')
  end.

(** The loop of [handle_response] over the generator. *)
Definition run_stream (fuel : nat)
    (msg call_history call_log_md_display : pystr) (call_count : Z)
    (s : session) : run envelope :=
  consume next fuel
    (respond_stream msg call_history call_log_md_display call_count) s.

(** What [handle_response] hands to the six output components for one
    envelope: it reads all six fields, and an [AISimpleResponse] has no
    [call_history]. *)
Definition handle_response_fields (response : envelope)
  : result (pystr * list pyval * list pyval * pystr * pystr * Z) :=
  match response with
  | Custom r =>
      Ok (AICustomResponse.bot_message r,
          AICustomResponse.chat_history r,
          AICustomResponse.chat_history_for_ml r,
          AICustomResponse.call_history r,
          AICustomResponse.call_log_md_display r,
          AICustomResponse.call_count r)
  | Simple _ => Raise AttributeError
  end.
End ChatApp.
End LV3_realtime_httplog_streaming_ui.

(** * What the theorems talk about *)

(** ** What the specification calls the History Manager *)

(** The specification's [append_turn]: the user entry and the assistant
    entry go to the end of the display log, one entry to the end of the ML
    log.  The code has no such function; each method does the three
    appends itself, and the theorems below compare what it leaves in the
    lists with this. *)
Definition append_turn (s : session) (msg : pystr) (answer : pyval)
  : session :=
  {| s_chat_history :=
       s_chat_history s
       ++ [turn "user" (PStr msg); turn "assistant" answer];
     s_chat_history_for_ml :=
       s_chat_history_for_ml s ++ [ml_turn msg answer] |}.

(** The response that [exec_api] gets for a message, given the ML log it
    sends along. *)
Definition response_to (requests_post : endpoint) (self : BaseChatApp)
    (msg : pystr) (s : session) : Response :=
  requests_post (_endpoint_url self)
    (request_payload msg (s_chat_history_for_ml s)) (request_headers self).

(** The characters of a string as the [for] loop draws them. *)
Definition chars (a : pystr) : list pyval := map (fun c => PStr [c]) a.

(** [needle] is a substring of [text]. *)
Definition occurs (needle text : pystr) : Prop :=
  exists before behind, text = before ++ needle ++ behind.

(** [res_json.get("answer", "<EMPTY>")] on a decoded body that is a dict. *)
Definition answer_of (res_json : pydict) : pyval :=
  dict_get res_json (str "answer") EMPTY.

(** The envelope that the loop over the characters [rest] yields at its
    [i]-th round when it started with [content] revealed: the display
    history [base] followed by the assistant entry with [i] more
    characters. *)
Definition reveal (base ml : list pyval) (content rest : pystr) (i : nat)
  : AISimpleResponse.t :=
  AISimpleResponse.Build []
    (base ++ [turn "assistant" (PStr (content ++ firstn i rest))]) ml.

(** An envelope of LV3 that carries the three audit values [h], [d] and
    [n]. *)
Definition carries (h d : pystr) (n : Z)
    (e : LV3_realtime_httplog_streaming_ui.envelope) : Prop :=
  exists c,
    e = LV3_realtime_httplog_streaming_ui.Custom c
    /\ AICustomResponse.call_history c = h
    /\ AICustomResponse.call_log_md_display c = d
    /\ AICustomResponse.call_count c = n.

(** The entry that a successful call adds to the call log of LV3. *)
Definition logged_call (requests_post : endpoint) (self : BaseChatApp)
    (msg : pystr) (call_count : Z) (s : session) (res_json : pyval)
  : pystr :=
  create_http_log (call_count + 1) self
    (request_payload msg (s_chat_history_for_ml s)) res_json
    (Some (status_code (response_to requests_post self msg s)))
    (Some (reason (response_to requests_post self msg s))).

(** A decoded body has the key [answer] only if it is a dict and holds
    it; [None], a list, a string and a number have no keys at all. *)
Definition has_answer_key (body : pyval) : bool :=
  match body with
  | PDict d => dict_has d (str "answer")
  | _ => false
  end.

(** The same application object with another credential. *)
Definition with_endpoint_key (app : BaseChatApp) (key : pystr)
  : BaseChatApp :=
  {| _endpoint_url := _endpoint_url app;
     _endpoint_key := key;
     protocol := protocol app;
     host := host app;
     path := path app;
     _endpoint_name := _endpoint_name app;
     _deployment_name := _deployment_name app |}.

(** ** Concrete inputs used by the examples *)

Module Sample.
Definition app : BaseChatApp :=
  {| _endpoint_url := str "https://chat.example.net/score";
     _endpoint_key := str "s3cr3t";
     protocol := str "https";
     host := str "chat.example.net";
     path := str "/score";
     _endpoint_name := str "chat-endpoint";
     _deployment_name := str "blue" |}.

(** An endpoint that answers every request with the same response. *)
Definition always (r : Response) : endpoint := fun _ _ _ => r.

Definition ok (body : pyval) : Response :=
  {| status_code := 200; reason := str "OK"; json_body := Some body |}.

Definition server_error : Response :=
  {| status_code := 500;
     reason := str "Internal Server Error";
     json_body := None |}.

(** Status 200 with a body that is not JSON. *)
Definition garbled : Response :=
  {| status_code := 200; reason := str "OK"; json_body := None |}.

Definition fresh : session :=
  {| s_chat_history := []; s_chat_history_for_ml := [] |}.

Definition answer_ok : pyval := PDict [(str "answer", PStr (str "ok"))].

(** The lists after one earlier turn, the display entries in the shape
    the chat widget sends them back in (with a [metadata] dict). *)
Definition one_turn : session :=
  {| s_chat_history :=
       [PDict [(str "role", PStr (str "user"));
               (str "metadata", PDict [(str "title", PNone)]);
               (str "content", PStr (str "hello"))];
        PDict [(str "role", PStr (str "assistant"));
               (str "metadata", PDict [(str "title", PNone)]);
               (str "content", PStr (str "Hi!"))]];
     s_chat_history_for_ml :=
       [ml_turn (str "hello") (PStr (str "Hi!"))] |}.
End Sample.

(** * Start-up *)

(** ** src/utils.py: get_env_variable *)

(** A call that returns a value or raises; [X] is what it raises with. *)
Inductive attempt (X A : Type) : Type :=
| Returned (a : A)
| Raised (x : X).
Arguments Returned {X A} a.
Arguments Raised {X A} x.

(** [os.getenv]: the process environment, as it is once [load_dotenv] has
    run (whether or not it found a file). *)
Definition environ : Type := pystr -> option pystr.

(** The text of the [ValueError] for a variable. *)
Definition not_set (var_name : pystr) : pystr :=
  str "Error: Required environment variable '" ++ var_name
  ++ str "' is not set.".

(** [not value] for what [os.getenv] returned: [None] and the empty
    string. *)
Definition not_value (value : option pystr) : bool :=
  match value with
  | None => true
  | Some v => negb (truthy (PStr v))
  end.

(** The error of the result is the message of the [ValueError]. *)
Definition get_env_variable (getenv : environ) (var_name : pystr)
  : attempt pystr pystr :=
  let value := getenv var_name in
  if not_value value then Raised (not_set var_name)
  else
    match value with
    | Some v => Returned v
    | None => Raised (not_set var_name)
    end.

(** ** The SDK's objects *)

(** What the code reads of the objects the SDK returns: of an endpoint
    its URL and authentication mode, of its keys the primary key (read
    when the mode is [key]) or the access token (read otherwise). *)
Record OnlineEndpoint : Type := {
  scoring_uri : pystr;
  auth_mode : pystr
}.

Record EndpointKeys : Type := {
  primary_key : pystr;
  access_token : pystr
}.

(** The client, as far as the code uses it: the three look-ups of the
    constructor of [BaseChatApp]; each returns or raises an exception
    [X] of the SDK. *)
Record MLClient (X : Type) : Type := {
  online_endpoints_get : pystr -> attempt X OnlineEndpoint;
  online_endpoints_get_keys : pystr -> attempt X EndpointKeys;
  online_deployments_get : pystr -> pystr -> attempt X unit
}.
Arguments online_endpoints_get {X} m _.
Arguments online_endpoints_get_keys {X} m _.
Arguments online_deployments_get {X} m _ _.

(** ** src/initializer.py *)

(** The five variables, in the order [initialize_client] reads them. *)
Definition required_variables : list pystr :=
  [str "SUBSCRIPTION_ID"; str "RESOURCE_GROUP_NAME"; str "WORKSPACE_NAME";
   str "ENDPOINT_NAME"; str "DEPLOYMENT_NAME"].

Section Initializer.
Variable getenv : environ.

(** The SDK's constructor [MLClient(credential, subscription_id,
    resource_group_name, workspace_name)]. *)
Variable X : Type.
Variable new_MLClient : pystr -> pystr -> pystr -> MLClient X.

(** A missing [.env] file is logged and nothing else; the variables are
    then read one after the other and the first [ValueError] leaves the
    function. *)
Definition initialize_client
  : attempt pystr (MLClient X * pystr * pystr) :=
  match get_env_variable getenv (str "SUBSCRIPTION_ID") with
  | Raised e => Raised e
  | Returned sub_id =>
  match get_env_variable getenv (str "RESOURCE_GROUP_NAME") with
  | Raised e => Raised e
  | Returned rg_name =>
  match get_env_variable getenv (str "WORKSPACE_NAME") with
  | Raised e => Raised e
  | Returned ws_name =>
  match get_env_variable getenv (str "ENDPOINT_NAME") with
  | Raised e => Raised e
  | Returned endpoint_name =>
  match get_env_variable getenv (str "DEPLOYMENT_NAME") with
  | Raised e => Raised e
  | Returned deployment_name =>
      Returned (new_MLClient sub_id rg_name ws_name,
                endpoint_name, deployment_name)
  end end end end end.
End Initializer.

(** ** src/chat.py: BaseChatApp.__init__ *)

Section Setup.
Variable X : Type.
Variable ml_client : MLClient X.

(** [urllib.parse.urlparse], for its [scheme], [netloc] and [path]. *)
Variable urlparse : pystr -> pystr * pystr * pystr.

(** The attributes [setup_endpoint] sets. The [except] clause logs and
    raises the same exception again. *)
Definition setup_endpoint (endpoint_name : pystr)
  : attempt X (pystr * pystr * (pystr * pystr * pystr) * pystr) :=
  match online_endpoints_get ml_client endpoint_name with
  | Raised e => Raised e
  | Returned endpoint =>
      match online_endpoints_get_keys ml_client endpoint_name with
      | Raised e => Raised e
      | Returned keys =>
          let endpoint_url := scoring_uri endpoint in
          let endpoint_key :=
            if pystr_eqb (auth_mode endpoint) (str "key")
            then primary_key keys
            else access_token keys in
          let parsed_url := urlparse endpoint_url in
          Returned (endpoint_url, endpoint_key, parsed_url, endpoint_name)
      end
  end.

(** [setup_deployment] keeps the name and checks that the deployment
    exists under the endpoint set before. *)
Definition setup_deployment (endpoint_name deployment_name : pystr)
  : attempt X pystr :=
  match online_deployments_get ml_client deployment_name endpoint_name with
  | Raised e => Raised e
  | Returned _ => Returned deployment_name
  end.

(** [BaseChatApp.__init__]: the object it leaves, or the exception. *)
Definition __init__ (endpoint_name deployment_name : pystr)
  : attempt X BaseChatApp :=
  match setup_endpoint endpoint_name with
  | Raised e => Raised e
  | Returned (endpoint_url, endpoint_key, (scheme, netloc, url_path), name) =>
      match setup_deployment name deployment_name with
      | Raised e => Raised e
      | Returned deployment =>
          Returned {| _endpoint_url := endpoint_url;
                      _endpoint_key := endpoint_key;
                      protocol := scheme;
                      host := netloc;
                      path := url_path;
                      _endpoint_name := name;
                      _deployment_name := deployment |}
      end
  end.
End Setup.

(** * A conversation in the atomic front end *)

(** [msg.submit(fn=handle_response, inputs=[msg, chat_history,
    chat_history_for_ml], outputs=[msg, chat_history,
    chat_history_for_ml])] of LV1: what a call returns for the two
    histories is what the next call is given.  A call that raises ends
    the run here. *)
Fixpoint submit_all (requests_post : endpoint) (self : BaseChatApp)
    (msgs : list pystr) (s : session) : result session :=
  match msgs with
  | [] => Ok s
  | msg :: rest =>
      match LV1_nonstreaming_ui.handle_response requests_post self msg s with
      | (Ok (_, chat_history, chat_history_for_ml), _) =>
          submit_all requests_post self rest
            {| s_chat_history := chat_history;
               s_chat_history_for_ml := chat_history_for_ml |}
      | (Raise e, _) => Raise e
      end
  end.

(** * The two streaming front ends side by side *)

(** An envelope of LV3 without its audit fields. *)
Definition without_audit (e : LV3_realtime_httplog_streaming_ui.envelope)
  : AISimpleResponse.t :=
  match e with
  | LV3_realtime_httplog_streaming_ui.Simple r => r
  | LV3_realtime_httplog_streaming_ui.Custom r =>
      AISimpleResponse.Build
        (AICustomResponse.bot_message r)
        (AICustomResponse.chat_history r)
        (AICustomResponse.chat_history_for_ml r)
  end.

(** The generator of LV2 that stands where a generator of LV3 stands. *)
Definition same_place (g : LV3_realtime_httplog_streaming_ui.generator)
  : LV2_streaming_ui.generator :=
  match g with
  | LV3_realtime_httplog_streaming_ui.Created msg _ _ _ =>
      LV2_streaming_ui.Created msg
  | LV3_realtime_httplog_streaming_ui.AtFailureYield =>
      LV2_streaming_ui.AtFailureYield
  | LV3_realtime_httplog_streaming_ui.AtLoopYield content rest _ _ _ =>
      LV2_streaming_ui.AtLoopYield content rest
  | LV3_realtime_httplog_streaming_ui.Finished => LV2_streaming_ui.Finished
  end.

Definition map_event {A B : Type} (f : A -> B) (ev : event A) : event B :=
  match ev with
  | Yielded e => Yielded (f e)
  | Stop => Stop
  end.

Definition map_result {A B : Type} (f : A -> B) (r : result A) : result B :=
  match r with
  | Ok a => Ok (f a)
  | Raise e => Raise e
  end.

Definition map_run {A B : Type} (f : A -> B) (r : run A) : run B :=
  {| emitted := map f (emitted r);
     outcome := outcome r;
     after := after r |}.

(** What the lists hold once a call has been made, read off the response:
    a 4xx or 5xx status, a body that is not JSON and a body that is no
    JSON object leave them alone; a JSON object adds the turn. *)
Definition lists_after (r : Response) (msg : pystr) (s : session) : session :=
  if raise_for_status r then s
  else
    match json_body r with
    | Some (PDict res_json) => append_turn s msg (answer_of res_json)
    | _ => s
    end.

(** A character that [json.dumps] writes as it is. *)
Definition json_plain (c : pychar) : bool :=
  negb (N.eqb c 34 || N.eqb c 92 || (c <? 32)%N).

(** An answer that is neither a string nor a container. *)
Definition scalar (v : pyval) : bool :=
  match v with
  | PNone | PBool _ | PInt _ | PFloat _ => true
  | _ => false
  end.

(** A variable that [get_env_variable] refuses: not set, or set to the
    empty string. *)
Definition unusable (getenv : environ) (var_name : pystr) : bool :=
  match getenv var_name with
  | Some (_ :: _) => false
  | _ => true
  end.

(** The entries that a list of questions with their answers leaves on the
    display log and on the ML log. *)
Definition display_turns (qa : list (pystr * pyval)) : list pyval :=
  flat_map (fun p => [turn "user" (PStr (fst p)); turn "assistant" (snd p)])
    qa.

Definition ml_turns (qa : list (pystr * pyval)) : list pyval :=
  map (fun p => ml_turn (fst p) (snd p)) qa.

(** ** Concrete inputs for the start-up *)

Module StartupSample.
(** An environment with the five variables set. *)
Definition complete : environ :=
  fun var_name =>
    if pystr_eqb var_name (str "SUBSCRIPTION_ID") then Some (str "sub-1")
    else if pystr_eqb var_name (str "RESOURCE_GROUP_NAME")
    then Some (str "rg-chat")
    else if pystr_eqb var_name (str "WORKSPACE_NAME") then Some (str "ws-chat")
    else if pystr_eqb var_name (str "ENDPOINT_NAME")
    then Some (str "chat-endpoint")
    else if pystr_eqb var_name (str "DEPLOYMENT_NAME") then Some (str "blue")
    else None.

(** The same with WORKSPACE_NAME set to the empty string and
    DEPLOYMENT_NAME not set. *)
Definition incomplete : environ :=
  fun var_name =>
    if pystr_eqb var_name (str "WORKSPACE_NAME") then Some []
    else if pystr_eqb var_name (str "DEPLOYMENT_NAME") then None
    else complete var_name.

(** A workspace with one endpoint in key mode and one deployment. *)
Definition workspace : MLClient unit :=
  {| online_endpoints_get := fun name =>
       if pystr_eqb name (str "chat-endpoint")
       then Returned {| scoring_uri := str "https://chat.example.net/score";
                        auth_mode := str "key" |}
       else Raised tt;
     online_endpoints_get_keys := fun name =>
       if pystr_eqb name (str "chat-endpoint")
       then Returned {| primary_key := str "s3cr3t";
                        access_token := str "t0k3n" |}
       else Raised tt;
     online_deployments_get := fun name endpoint_name =>
       if pystr_eqb name (str "blue")
          && pystr_eqb endpoint_name (str "chat-endpoint")
       then Returned tt
       else Raised tt |}.

Definition new_MLClient (sub_id rg_name ws_name : pystr) : MLClient unit :=
  workspace.

(** What [urlparse] gives for the URL of that endpoint. *)
Definition urlparse (url : pystr) : pystr * pystr * pystr :=
  (str "https", str "chat.example.net", str "/score").
End StartupSample.

(** * Properties *)

(** ** Strings and json.dumps *)

Lemma pystr_eqb_eq (a b : pystr) : pystr_eqb a b = true <-> a = b.
Proof.
  unfold pystr_eqb. destruct (list_eq_dec N.eq_dec a b); split; congruence.
Qed.

Example dumps_payload :
  Json.dumps (PDict [(str "question", PStr (str "hi"));
                     (str "chat_history", PList [])])
  = markup "{
    'question': 'hi',
    'chat_history': []
}".
Proof. vm_compute. reflexivity. Qed.

(** ** exec_api *)

Lemma exec_api_http_error requests_post self msg s :
  raise_for_status (response_to requests_post self msg s) = true ->
  exec_api requests_post self msg (s_chat_history_for_ml s) = ApiNone.
Proof.
  unfold exec_api, response_to. intros ->. reflexivity.
Qed.

Lemma exec_api_decoded requests_post self msg s body :
  raise_for_status (response_to requests_post self msg s) = false ->
  json_body (response_to requests_post self msg s) = Some body ->
  exec_api requests_post self msg (s_chat_history_for_ml s)
  = ApiTuple body
      (Some (status_code (response_to requests_post self msg s)))
      (Some (reason (response_to requests_post self msg s))).
Proof.
  unfold exec_api, response_to. intros -> ->. reflexivity.
Qed.

Lemma exec_api_undecodable requests_post self msg s :
  raise_for_status (response_to requests_post self msg s) = false ->
  json_body (response_to requests_post self msg s) = None ->
  exec_api requests_post self msg (s_chat_history_for_ml s)
  = ApiTuple PNone None None.
Proof.
  unfold exec_api, response_to. intros -> ->. reflexivity.
Qed.

(** ** Substrings *)

Lemma occurs_head (needle rest : pystr) : occurs needle (needle ++ rest).
Proof. exists [], rest. reflexivity. Qed.

Lemma occurs_behind (needle front text : pystr) :
  occurs needle text -> occurs needle (front ++ text).
Proof.
  intros (before & behind & ->).
  exists (front ++ before), behind. now rewrite app_assoc.
Qed.

(** ** Validation of the histories *)

Lemma history_ok_app l1 l2 :
  history_ok (l1 ++ l2) = history_ok l1 && history_ok l2.
Proof. apply forallb_app. Qed.

Lemma history_ok_turn role t l :
  history_ok (l ++ [turn role (PStr t)]) = history_ok l.
Proof.
  rewrite history_ok_app. cbn. now rewrite !andb_true_r.
Qed.

Lemma history_ok_ml_turn msg t l :
  history_ok (l ++ [ml_turn msg (PStr t)]) = history_ok l.
Proof.
  rewrite history_ok_app. cbn. now rewrite !andb_true_r.
Qed.

Lemma dict_get_missing d key default :
  dict_has d key = false -> dict_get d key default = default.
Proof.
  induction d as [|[k v] d IH]; cbn; [reflexivity|].
  destruct (pystr_eqb k key); cbn; [discriminate | exact IH].
Qed.


(** ** The streaming generator of LV2, step by step *)

Section StreamingSteps.
Import LV2_streaming_ui.
Variable requests_post : endpoint.
Variable self : BaseChatApp.

Local Abbreviation next := (LV2_streaming_ui.next requests_post self).

(** The loop reads the lists and never writes them. *)
Lemma loop_keeps_lists content items s :
  snd (loop content items s) = s.
Proof.
  destruct items as [|message rest]; [reflexivity|].
  unfold loop, bind, lift, chat_history, chat_history_for_ml, ret.
  destruct (str_add content _); [|reflexivity].
  destruct (AISimpleResponse.make _ _ _); reflexivity.
Qed.

Lemma next_loop_keeps_lists content items s :
  snd (next (AtLoopYield content items) s) = s.
Proof.
  unfold LV2_streaming_ui.next, resume.
  pose proof (loop_keeps_lists content items s) as H.
  destruct (loop content items s) as [[[ev g]|e] s']; exact H.
Qed.

(** A step taken inside the loop leaves the generator inside the loop
    or ends it. *)
Lemma next_loop_stays content items s ev g s' :
  next (AtLoopYield content items) s = (Ok (Yielded ev), g, s') ->
  s' = s
  /\ AISimpleResponse.chat_history_for_ml ev = s_chat_history_for_ml s
  /\ exists content' items', g = AtLoopYield content' items'.
Proof.
  unfold LV2_streaming_ui.next, resume.
  destruct items as [|message rest]; [discriminate|].
  unfold loop, bind, lift, chat_history, chat_history_for_ml, ret.
  destruct (str_add content _) as [content'|]; [|discriminate].
  unfold AISimpleResponse.make.
  destruct (history_ok _ && history_ok _); [|discriminate].
  intros [= <- <- <-]. repeat split. eauto.
Qed.

Lemma consume_loop_after fuel :
  forall content items s,
    after (consume next fuel (AtLoopYield content items) s) = s.
Proof.
  induction fuel as [|fuel IH]; intros content items s; [reflexivity|].
  cbn [consume].
  destruct (next (AtLoopYield content items) s) as [[[[ev|]|e] g] s'] eqn:E.
  - apply next_loop_stays in E as (-> & _ & content' & items' & ->).
    cbn. apply IH.
  - pose proof (next_loop_keeps_lists content items s) as H.
    rewrite E in H. exact H.
  - pose proof (next_loop_keeps_lists content items s) as H.
    rewrite E in H. exact H.
Qed.

Lemma consume_loop_ml fuel :
  forall content items s e,
    In e (emitted (consume next fuel (AtLoopYield content items) s)) ->
    AISimpleResponse.chat_history_for_ml e = s_chat_history_for_ml s.
Proof.
  induction fuel as [|fuel IH]; intros content items s e; [intros []|].
  cbn [consume].
  destruct (next (AtLoopYield content items) s) as [[[[ev|]|x] g] s'] eqn:E;
    cbn; try tauto.
  apply next_loop_stays in E as (-> & Hml & content' & items' & ->).
  intros [<- | Hin]; [exact Hml | exact (IH _ _ _ _ Hin)].
Qed.

(** One character of a string answer: the text grows by it and an
    envelope with the new text in the last entry is yielded. *)
Lemma next_loop_char content c rest base last ml :
  history_ok base = true ->
  history_ok ml = true ->
  let s := {| s_chat_history := base ++ [last];
              s_chat_history_for_ml := ml |} in
  next (AtLoopYield content (chars (c :: rest))) s
  = (Ok (Yielded
           (AISimpleResponse.Build []
              (base ++ [turn "assistant" (PStr (content ++ [c]))]) ml)),
     AtLoopYield (content ++ [c]) (chars rest), s).
Proof.
  intros Hb Hm s.
  unfold LV2_streaming_ui.next, resume, chars. cbn [map].
  unfold loop, bind, lift, chat_history, chat_history_for_ml, ret.
  cbn [py_or truthy str_add s s_chat_history s_chat_history_for_ml].
  rewrite removelast_last.
  unfold AISimpleResponse.make.
  rewrite (history_ok_turn "assistant"), Hb, Hm. reflexivity.
Qed.

Lemma next_loop_end content s :
  next (AtLoopYield content []) s = (Ok Stop, Finished, s).
Proof. reflexivity. Qed.

Lemma consume_loop_chars rest :
  forall content fuel base last ml,
    history_ok base = true ->
    history_ok ml = true ->
    let s := {| s_chat_history := base ++ [last];
                s_chat_history_for_ml := ml |} in
    consume next fuel (AtLoopYield content (chars rest)) s
    = {| emitted :=
           map (reveal base ml content rest)
             (seq 1 (Nat.min fuel (length rest)));
         outcome :=
           if length rest <? fuel then Some (Ok tt) else None;
         after := s |}.
Proof.
  induction rest as [|c rest IH]; intros content fuel base last ml Hb Hm s.
  - destruct fuel as [|fuel]; [reflexivity|].
    cbn [consume]. rewrite next_loop_end. reflexivity.
  - destruct fuel as [|fuel]; [reflexivity|].
    cbn [consume]. subst s.
    rewrite (next_loop_char content c rest base last ml Hb Hm).
    rewrite (IH (content ++ [c]) fuel base last ml Hb Hm).
    cbn [emitted outcome after length Nat.min seq map].
    rewrite <- (seq_shift (Nat.min fuel (length rest)) 1), map_map.
    change (S (length rest) <? S fuel) with (length rest <? fuel).
    assert (Hrest : forall i,
               reveal base ml content (c :: rest) (S i)
               = reveal base ml (content ++ [c]) rest i).
    { intros i. unfold reveal. cbn [firstn]. now rewrite <- app_assoc. }
    rewrite (map_ext _ _ Hrest). reflexivity.
Qed.
End StreamingSteps.

(** ** A call that succeeds *)

Section SuccessfulCall.
Import LV2_streaming_ui.
Variable requests_post : endpoint.
Variable self : BaseChatApp.
Variable msg : pystr.
Variable s : session.
Variable res_json : pydict.

(** The endpoint answers with a status that is no error and a body that
    decodes to a dict. *)
Hypothesis status_ok :
  raise_for_status (response_to requests_post self msg s) = false.
Hypothesis body_ok :
  json_body (response_to requests_post self msg s) = Some (PDict res_json).

Local Abbreviation next := (LV2_streaming_ui.next requests_post self).
Local Abbreviation run_stream :=
  (LV2_streaming_ui.run_stream requests_post self).
Local Abbreviation respond_simple :=
  (LV1_nonstreaming_ui.respond_simple requests_post self).

(** The first [next()] does the three appends and then enters the loop. *)
Lemma first_next :
  next (respond_stream msg) s
  = match iter (answer_of res_json) with
    | Ok items =>
        next (AtLoopYield [] items)
          (append_turn s msg (answer_of res_json))
    | Raise e => (Raise e, Finished, append_turn s msg (answer_of res_json))
    end.
Proof.
  unfold LV2_streaming_ui.next at 1, respond_stream, resume.
  unfold bind at 1, chat_history_for_ml at 1.
  rewrite (exec_api_decoded _ _ _ _ _ status_ok body_ok).
  cbn [api_truthy negb call_get].
  fold (answer_of res_json).
  unfold bind, lift, chat_history_append, chat_history_for_ml_append.
  cbn [s_chat_history s_chat_history_for_ml].
  rewrite <- app_assoc. cbn [app]. fold (append_turn s msg (answer_of res_json)).
  destruct (iter (answer_of res_json)) as [items|e]; reflexivity.
Qed.

Lemma first_next_lists :
  snd (next (respond_stream msg) s)
  = append_turn s msg (answer_of res_json).
Proof.
  rewrite first_next.
  destruct (iter (answer_of res_json)) as [items|e]; [|reflexivity].
  apply next_loop_keeps_lists.
Qed.

Lemma run_stream_unfold fuel :
  run_stream (S fuel) msg s
  = match iter (answer_of res_json) with
    | Ok items =>
        consume next (S fuel) (AtLoopYield [] items)
          (append_turn s msg (answer_of res_json))
    | Raise e =>
        {| emitted := []; outcome := Some (Raise e);
           after := append_turn s msg (answer_of res_json) |}
    end.
Proof.
  unfold LV2_streaming_ui.run_stream. cbn [consume].
  rewrite first_next.
  destruct (iter (answer_of res_json)) as [items|e]; reflexivity.
Qed.

Lemma run_stream_after fuel :
  after (run_stream (S fuel) msg s)
  = append_turn s msg (answer_of res_json).
Proof.
  rewrite run_stream_unfold.
  destruct (iter (answer_of res_json)) as [items|e]; [|reflexivity].
  apply consume_loop_after.
Qed.

Lemma run_stream_ml fuel e :
  In e (emitted (run_stream fuel msg s)) ->
  AISimpleResponse.chat_history_for_ml e
  = s_chat_history_for_ml s ++ [ml_turn msg (answer_of res_json)].
Proof.
  destruct fuel as [|fuel]; [intros []|].
  rewrite run_stream_unfold.
  destruct (iter (answer_of res_json)) as [items|x]; [|intros []].
  intros H. apply consume_loop_ml in H. exact H.
Qed.

(** From here on the answer is a string and the histories that came in
    pass the envelope's validation. *)
Variable answer : pystr.
Hypothesis answer_str : answer_of res_json = PStr answer.
Hypothesis chat_history_ok : history_ok (s_chat_history s) = true.
Hypothesis chat_history_for_ml_ok :
  history_ok (s_chat_history_for_ml s) = true.

Lemma run_stream_trace fuel :
  run_stream (S fuel) msg s
  = {| emitted :=
         map (reveal (s_chat_history s ++ [turn "user" (PStr msg)])
                (s_chat_history_for_ml s ++ [ml_turn msg (PStr answer)])
                [] answer)
           (seq 1 (Nat.min (S fuel) (length answer)));
       outcome := if length answer <? S fuel then Some (Ok tt) else None;
       after := append_turn s msg (PStr answer) |}.
Proof.
  rewrite run_stream_unfold, answer_str. cbn [iter].
  unfold append_turn.
  change (s_chat_history s
          ++ [turn "user" (PStr msg); turn "assistant" (PStr answer)])
    with (s_chat_history s
          ++ [turn "user" (PStr msg)] ++ [turn "assistant" (PStr answer)]).
  rewrite app_assoc.
  apply (consume_loop_chars requests_post self answer []).
  - now rewrite history_ok_turn.
  - now rewrite history_ok_ml_turn.
Qed.

Lemma respond_simple_returns :
  respond_simple msg s
  = (Ok (Some (AISimpleResponse.Build []
                 (s_chat_history (append_turn s msg (PStr answer)))
                 (s_chat_history_for_ml (append_turn s msg (PStr answer))))),
     append_turn s msg (PStr answer)).
Proof.
  unfold LV1_nonstreaming_ui.respond_simple.
  unfold bind at 1, chat_history_for_ml at 1.
  rewrite (exec_api_decoded _ _ _ _ _ status_ok body_ok).
  cbn [api_truthy negb call_get].
  fold (answer_of res_json). rewrite answer_str.
  unfold bind, lift, chat_history_append, chat_history_for_ml_append,
    chat_history, chat_history_for_ml, ret.
  cbn [s_chat_history s_chat_history_for_ml].
  rewrite <- app_assoc. cbn [app].
  unfold AISimpleResponse.make.
  change (s_chat_history s
          ++ [turn "user" (PStr msg); turn "assistant" (PStr answer)])
    with (s_chat_history s
          ++ [turn "user" (PStr msg)] ++ [turn "assistant" (PStr answer)]).
  rewrite app_assoc, !history_ok_turn, history_ok_ml_turn.
  rewrite chat_history_ok, chat_history_for_ml_ok.
  cbn [andb]. rewrite <- app_assoc. reflexivity.
Qed.
End SuccessfulCall.

(** ** Streaming: the envelopes of a successful call *)

(** C3. Streaming mode, successful call whose answer is a string of
    length N: the sequence has exactly N envelopes and then ends without
    an exception; when the answer is the empty string the sequence is
    empty, and that too is a regular end. *)
Theorem stream_length requests_post self msg s res_json answer fuel :
  raise_for_status (response_to requests_post self msg s) = false ->
  json_body (response_to requests_post self msg s) = Some (PDict res_json) ->
  answer_of res_json = PStr answer ->
  history_ok (s_chat_history s) = true ->
  history_ok (s_chat_history_for_ml s) = true ->
  length answer < fuel ->
  length (emitted (LV2_streaming_ui.run_stream requests_post self fuel msg s))
  = length answer
  /\ outcome (LV2_streaming_ui.run_stream requests_post self fuel msg s)
     = Some (Ok tt)
  /\ (answer = [] ->
      emitted (LV2_streaming_ui.run_stream requests_post self fuel msg s)
      = []).
Proof.
  intros Hs Hb Ha Hc Hm Hfuel.
  destruct fuel as [|fuel]; [lia|].
  rewrite (run_stream_trace _ _ _ _ _ Hs Hb _ Ha Hc Hm).
  cbn [emitted outcome].
  rewrite length_map, length_seq.
  replace (Nat.min (S fuel) (length answer)) with (length answer) by lia.
  split; [reflexivity|]. split.
  - apply Nat.ltb_lt in Hfuel. now rewrite Hfuel.
  - intros ->. reflexivity.
Qed.

Lemma stream_length_witness :
  length (emitted (LV2_streaming_ui.run_stream
                     (Sample.always (Sample.ok Sample.answer_ok))
                     Sample.app 3 (str "hi") Sample.fresh))
  = length (str "ok")
  /\ outcome (LV2_streaming_ui.run_stream
                (Sample.always (Sample.ok Sample.answer_ok))
                Sample.app 3 (str "hi") Sample.fresh)
     = Some (Ok tt)
  /\ (str "ok" = [] ->
      emitted (LV2_streaming_ui.run_stream
                 (Sample.always (Sample.ok Sample.answer_ok))
                 Sample.app 3 (str "hi") Sample.fresh)
      = []).
Proof.
  apply (stream_length (Sample.always (Sample.ok Sample.answer_ok))
           Sample.app (str "hi") Sample.fresh
           [(str "answer", PStr (str "ok"))] (str "ok") 3);
    try reflexivity.
  cbn. lia.
Defined.

(** C4. Streaming mode, successful call with a string answer of length N:
    for every i from 1 to N the i-th envelope's display history is the
    display log as the call left it with only its last entry replaced by
    the assistant entry holding the first i characters of the answer; the
    last envelope's assistant entry holds the whole answer. *)
Theorem stream_reveals_prefixes requests_post self msg s res_json answer fuel :
  raise_for_status (response_to requests_post self msg s) = false ->
  json_body (response_to requests_post self msg s) = Some (PDict res_json) ->
  answer_of res_json = PStr answer ->
  history_ok (s_chat_history s) = true ->
  history_ok (s_chat_history_for_ml s) = true ->
  length answer < fuel ->
  s_chat_history
    (after (LV2_streaming_ui.run_stream requests_post self fuel msg s))
  = s_chat_history s
    ++ [turn "user" (PStr msg); turn "assistant" (PStr answer)]
  /\ (forall i, 1 <= i <= length answer ->
      exists e,
        nth_error
          (emitted (LV2_streaming_ui.run_stream requests_post self fuel msg s))
          (i - 1) = Some e
        /\ AISimpleResponse.chat_history e
           = removelast
               (s_chat_history
                  (after (LV2_streaming_ui.run_stream
                            requests_post self fuel msg s)))
             ++ [turn "assistant" (PStr (firstn i answer))])
  /\ (answer <> [] ->
      exists e,
        nth_error
          (emitted (LV2_streaming_ui.run_stream requests_post self fuel msg s))
          (length answer - 1) = Some e
        /\ last (AISimpleResponse.chat_history e) PNone
           = turn "assistant" (PStr answer)).
Proof.
  intros Hs Hb Ha Hc Hm Hfuel.
  destruct fuel as [|fuel]; [lia|].
  rewrite (run_stream_trace _ _ _ _ _ Hs Hb _ Ha Hc Hm).
  cbn [emitted after append_turn s_chat_history].
  replace (Nat.min (S fuel) (length answer)) with (length answer) by lia.
  assert (Hnth : forall i, 1 <= i <= length answer ->
            nth_error
              (map (reveal (s_chat_history s ++ [turn "user" (PStr msg)])
                      (s_chat_history_for_ml s ++ [ml_turn msg (PStr answer)])
                      [] answer) (seq 1 (length answer))) (i - 1)
            = Some (reveal (s_chat_history s ++ [turn "user" (PStr msg)])
                      (s_chat_history_for_ml s ++ [ml_turn msg (PStr answer)])
                      [] answer i)).
  { intros i Hi. rewrite nth_error_map.
    rewrite (nth_error_nth' _ 0) by (rewrite length_seq; lia).
    rewrite seq_nth by lia. cbn. f_equal. f_equal. lia. }
  assert (Hrl : removelast
                  (s_chat_history s
                   ++ [turn "user" (PStr msg); turn "assistant" (PStr answer)])
                = s_chat_history s ++ [turn "user" (PStr msg)]).
  { change [turn "user" (PStr msg); turn "assistant" (PStr answer)]
      with ([turn "user" (PStr msg)] ++ [turn "assistant" (PStr answer)]).
    rewrite app_assoc. apply removelast_last. }
  split; [reflexivity|]. split.
  - intros i Hi. eexists. split; [apply (Hnth i Hi)|].
    rewrite Hrl. reflexivity.
  - intros Hne. eexists. split.
    + apply Hnth. destruct answer; [congruence | cbn; lia].
    + cbn [reveal AISimpleResponse.chat_history app].
      rewrite last_last, firstn_all. reflexivity.
Qed.

Lemma stream_reveals_prefixes_witness :
  exists e,
    nth_error
      (emitted (LV2_streaming_ui.run_stream
                  (Sample.always (Sample.ok Sample.answer_ok))
                  Sample.app 3 (str "hi") Sample.fresh)) (1 - 1) = Some e
    /\ AISimpleResponse.chat_history e
       = removelast
           (s_chat_history
              (after (LV2_streaming_ui.run_stream
                        (Sample.always (Sample.ok Sample.answer_ok))
                        Sample.app 3 (str "hi") Sample.fresh)))
         ++ [turn "assistant" (PStr (firstn 1 (str "ok")))].
Proof.
  refine (proj1 (proj2
    (stream_reveals_prefixes (Sample.always (Sample.ok Sample.answer_ok))
       Sample.app (str "hi") Sample.fresh
       [(str "answer", PStr (str "ok"))] (str "ok") 3 _ _ _ _ _ _)) 1 _);
    try reflexivity; cbn; lia.
Defined.

(** ** Both logs after a turn *)

(** C5. A successful call (string answer) completes in both modes, and the
    lists it leaves are the lists it was given followed by the new
    entries: user entry and assistant entry on the display log, one entry
    on the ML log.  So the display log is two longer, the ML log one
    longer, and a display log twice as long as the ML log before the turn
    is twice as long after it. *)
Theorem turn_grows_both_logs requests_post self msg s res_json answer fuel :
  raise_for_status (response_to requests_post self msg s) = false ->
  json_body (response_to requests_post self msg s) = Some (PDict res_json) ->
  answer_of res_json = PStr answer ->
  history_ok (s_chat_history s) = true ->
  history_ok (s_chat_history_for_ml s) = true ->
  length answer < fuel ->
  (exists response,
      fst (LV1_nonstreaming_ui.respond_simple requests_post self msg s)
      = Ok (Some response))
  /\ outcome (LV2_streaming_ui.run_stream requests_post self fuel msg s)
     = Some (Ok tt)
  /\ forall s',
      s' = snd (LV1_nonstreaming_ui.respond_simple requests_post self msg s)
      \/ s' = after (LV2_streaming_ui.run_stream
                       requests_post self fuel msg s) ->
      s_chat_history s'
      = s_chat_history s
        ++ [turn "user" (PStr msg); turn "assistant" (PStr answer)]
      /\ s_chat_history_for_ml s'
         = s_chat_history_for_ml s ++ [ml_turn msg (PStr answer)]
      /\ length (s_chat_history s') = length (s_chat_history s) + 2
      /\ length (s_chat_history_for_ml s')
         = length (s_chat_history_for_ml s) + 1
      /\ (length (s_chat_history s) = 2 * length (s_chat_history_for_ml s) ->
          length (s_chat_history s') = 2 * length (s_chat_history_for_ml s')).
Proof.
  intros Hs Hb Ha Hc Hm Hfuel.
  destruct fuel as [|fuel]; [lia|].
  rewrite (respond_simple_returns _ _ _ _ _ Hs Hb _ Ha Hc Hm).
  rewrite (run_stream_trace _ _ _ _ _ Hs Hb _ Ha Hc Hm).
  cbn [fst snd outcome after].
  split; [eauto|]. split.
  - apply Nat.ltb_lt in Hfuel. now rewrite Hfuel.
  - intros s' Hs'.
    assert (s' = append_turn s msg (PStr answer)) as -> by tauto.
    cbn [append_turn s_chat_history s_chat_history_for_ml].
    rewrite !length_app. cbn [length]. repeat split; lia.
Qed.

Lemma turn_grows_both_logs_witness :
  outcome (LV2_streaming_ui.run_stream
             (Sample.always (Sample.ok Sample.answer_ok))
             Sample.app 3 (str "hi") Sample.fresh)
  = Some (Ok tt).
Proof.
  refine (proj1 (proj2
    (turn_grows_both_logs (Sample.always (Sample.ok Sample.answer_ok))
       Sample.app (str "hi") Sample.fresh
       [(str "answer", PStr (str "ok"))] (str "ok") 3 _ _ _ _ _ _)));
    try reflexivity; cbn; lia.
Defined.

(** C6. Streaming mode, successful call: the first [next()] has already
    put the complete answer on both lists when it returns, no later step
    touches them, and every envelope of the sequence carries the same ML
    history, the one that ends with the entry for the full answer. *)
Theorem stream_appends_before_first_yield requests_post self msg s res_json :
  raise_for_status (response_to requests_post self msg s) = false ->
  json_body (response_to requests_post self msg s) = Some (PDict res_json) ->
  snd (LV2_streaming_ui.next requests_post self
         (LV2_streaming_ui.respond_stream msg) s)
  = append_turn s msg (answer_of res_json)
  /\ (forall fuel,
      after (LV2_streaming_ui.run_stream requests_post self (S fuel) msg s)
      = append_turn s msg (answer_of res_json))
  /\ (forall fuel e,
      In e (emitted
              (LV2_streaming_ui.run_stream requests_post self fuel msg s)) ->
      AISimpleResponse.chat_history_for_ml e
      = s_chat_history_for_ml s ++ [ml_turn msg (answer_of res_json)]).
Proof.
  intros Hs Hb. split; [|split].
  - exact (first_next_lists _ _ _ _ _ Hs Hb).
  - intros fuel. exact (run_stream_after _ _ _ _ _ Hs Hb fuel).
  - intros fuel e. exact (run_stream_ml _ _ _ _ _ Hs Hb fuel e).
Qed.

Lemma stream_appends_before_first_yield_witness :
  snd (LV2_streaming_ui.next (Sample.always (Sample.ok Sample.answer_ok))
         Sample.app (LV2_streaming_ui.respond_stream (str "hi")) Sample.fresh)
  = append_turn Sample.fresh (str "hi") (PStr (str "ok")).
Proof.
  exact (proj1
    (stream_appends_before_first_yield
       (Sample.always (Sample.ok Sample.answer_ok))
       Sample.app (str "hi") Sample.fresh
       [(str "answer", PStr (str "ok"))] eq_refl eq_refl)).
Defined.

(** ** A body without the answer key *)

(** C9, as amended. Status 200 and a body that decodes to a JSON object
    without the key [answer]: neither mode fails, the answer is the
    literal [<EMPTY>], and both lists record that string as the
    assistant's output. *)
Theorem missing_answer_is_EMPTY requests_post self msg s res_json fuel :
  status_code (response_to requests_post self msg s) = 200%Z ->
  json_body (response_to requests_post self msg s) = Some (PDict res_json) ->
  dict_has res_json (str "answer") = false ->
  history_ok (s_chat_history s) = true ->
  history_ok (s_chat_history_for_ml s) = true ->
  length (str "<EMPTY>") < fuel ->
  answer_of res_json = PStr (str "<EMPTY>")
  /\ LV1_nonstreaming_ui.respond_simple requests_post self msg s
     = (Ok (Some (AISimpleResponse.Build []
                    (s_chat_history s
                     ++ [turn "user" (PStr msg);
                         turn "assistant" (PStr (str "<EMPTY>"))])
                    (s_chat_history_for_ml s
                     ++ [ml_turn msg (PStr (str "<EMPTY>"))]))),
        append_turn s msg (PStr (str "<EMPTY>")))
  /\ outcome (LV2_streaming_ui.run_stream requests_post self fuel msg s)
     = Some (Ok tt)
  /\ after (LV2_streaming_ui.run_stream requests_post self fuel msg s)
     = append_turn s msg (PStr (str "<EMPTY>")).
Proof.
  intros Hcode Hb Hmiss Hc Hm Hfuel.
  assert (Hs : raise_for_status (response_to requests_post self msg s) = false).
  { unfold raise_for_status. rewrite Hcode. reflexivity. }
  assert (Ha : answer_of res_json = PStr (str "<EMPTY>")).
  { unfold answer_of. now rewrite dict_get_missing. }
  destruct fuel as [|fuel]; [lia|].
  rewrite (respond_simple_returns _ _ _ _ _ Hs Hb _ Ha Hc Hm).
  rewrite (run_stream_trace _ _ _ _ _ Hs Hb _ Ha Hc Hm).
  cbn [outcome after].
  apply Nat.ltb_lt in Hfuel. rewrite Hfuel.
  repeat split. exact Ha.
Qed.

Lemma missing_answer_is_EMPTY_witness :
  answer_of [] = PStr (str "<EMPTY>").
Proof.
  refine (proj1
    (missing_answer_is_EMPTY (Sample.always (Sample.ok (PDict [])))
       Sample.app (str "hi") Sample.fresh [] 8 _ _ _ _ _ _));
    try reflexivity; cbn; lia.
Defined.

(** C9 as stated fails on a body that decodes to something other than a
    JSON object.  The endpoint answers status 200 with the body [[]]: the
    body decodes, it has no key [answer], the incoming lists are empty
    and valid, and yet [.get] is called on a list, [AttributeError]
    leaves both front ends, no envelope is produced and nothing is
    recorded on the lists. *)
Lemma missing_answer_list_body_counterexample :
  status_code (Sample.ok (PList [])) = 200%Z
  /\ json_body (Sample.ok (PList [])) = Some (PList [])
  /\ has_answer_key (PList []) = false
  /\ LV1_nonstreaming_ui.respond_simple
       (Sample.always (Sample.ok (PList []))) Sample.app (str "hi")
       Sample.fresh
     = (Raise AttributeError, Sample.fresh)
  /\ LV2_streaming_ui.run_stream
       (Sample.always (Sample.ok (PList []))) Sample.app 8 (str "hi")
       Sample.fresh
     = {| emitted := [];
          outcome := Some (Raise AttributeError);
          after := Sample.fresh |}.
Proof. repeat split. Qed.

(** ** The streaming generator with the call log (LV3), step by step *)

Section AuditSteps.
Import LV3_realtime_httplog_streaming_ui.
Variable requests_post : endpoint.
Variable self : BaseChatApp.

Local Abbreviation next :=
  (LV3_realtime_httplog_streaming_ui.next requests_post self).
Local Abbreviation run_stream :=
  (LV3_realtime_httplog_streaming_ui.run_stream requests_post self).

(** A step inside the loop yields an envelope with the audit values the
    loop was entered with, and hands the same values on. *)
Lemma next_loop_carries content items h d n s ev g s' :
  next (AtLoopYield content items h d n) s = (Ok (Yielded ev), g, s') ->
  carries h d n ev
  /\ exists content' items', g = AtLoopYield content' items' h d n.
Proof.
  unfold LV3_realtime_httplog_streaming_ui.next, resume.
  destruct items as [|message rest]; [discriminate|].
  unfold loop, bind, lift, chat_history, chat_history_for_ml, ret.
  destruct (str_add content _) as [content'|]; [|discriminate].
  unfold AICustomResponse.make.
  destruct (history_ok _ && history_ok _); [|discriminate].
  intros [= <- <- <-]. split; [|eauto].
  eexists. split; [reflexivity|]. cbn. auto.
Qed.

Lemma consume_loop_carries fuel :
  forall content items h d n s e,
    In e (emitted (consume next fuel (AtLoopYield content items h d n) s)) ->
    carries h d n e.
Proof.
  induction fuel as [|fuel IH]; intros content items h d n s e;
    [intros []|].
  cbn [consume].
  destruct (next (AtLoopYield content items h d n) s)
    as [[[[ev|]|x] g] s'] eqn:E; cbn; try tauto.
  apply next_loop_carries in E as (Hc & content' & items' & ->).
  intros [<- | Hin]; [exact Hc | exact (IH _ _ _ _ _ _ _ Hin)].
Qed.

Variables msg call_history call_log_md_display : pystr.
Variable call_count : Z.
Variable s : session.

Local Abbreviation logged_call :=
  (logged_call requests_post self msg call_count s).

Lemma first_next_audit res_json :
  raise_for_status (response_to requests_post self msg s) = false ->
  json_body (response_to requests_post self msg s)
  = Some (PDict res_json) ->
  next (respond_stream msg call_history call_log_md_display call_count) s
  = match iter (answer_of res_json) with
    | Ok items =>
        next (AtLoopYield [] items
                (call_history ++ logged_call (PDict res_json))
                (format_http_log
                   (call_history ++ logged_call (PDict res_json)))
                (call_count + 1))
          (append_turn s msg (answer_of res_json))
    | Raise e => (Raise e, Finished, append_turn s msg (answer_of res_json))
    end.
Proof.
  intros status_ok body_ok.
  unfold LV3_realtime_httplog_streaming_ui.next at 1, respond_stream, resume.
  unfold bind at 1, chat_history_for_ml at 1.
  rewrite (exec_api_decoded _ _ _ _ _ status_ok body_ok).
  cbn [api_truthy negb call_get].
  fold (answer_of res_json).
  unfold bind, lift, chat_history_append, chat_history_for_ml_append,
    chat_history_for_ml.
  cbn [s_chat_history s_chat_history_for_ml].
  rewrite <- app_assoc. cbn [app].
  fold (append_turn s msg (answer_of res_json)).
  fold (logged_call (PDict res_json)).
  destruct (iter (answer_of res_json)) as [items|e]; reflexivity.
Qed.

Lemma run_stream_carries res_json fuel e :
  raise_for_status (response_to requests_post self msg s) = false ->
  json_body (response_to requests_post self msg s)
  = Some (PDict res_json) ->
  In e (emitted (run_stream fuel msg call_history call_log_md_display
                   call_count s)) ->
  carries (call_history ++ logged_call (PDict res_json))
    (format_http_log (call_history ++ logged_call (PDict res_json)))
    (call_count + 1) e.
Proof.
  intros status_ok body_ok.
  destruct fuel as [|fuel]; [intros []|].
  unfold LV3_realtime_httplog_streaming_ui.run_stream. cbn [consume].
  rewrite (first_next_audit res_json status_ok body_ok).
  destruct (iter (answer_of res_json)) as [items|x]; [|intros []].
  intros H.
  exact (consume_loop_carries (S fuel) _ _ _ _ _ _ _ H).
Qed.

(** A 4xx or 5xx status: one plain envelope with the lists as they came
    in, then the end. *)
Lemma run_stream_http_error fuel :
  raise_for_status (response_to requests_post self msg s) = true ->
  history_ok (s_chat_history s) = true ->
  history_ok (s_chat_history_for_ml s) = true ->
  run_stream (S (S fuel)) msg call_history call_log_md_display call_count s
  = {| emitted :=
         [Simple (AISimpleResponse.Build []
                    (s_chat_history s) (s_chat_history_for_ml s))];
       outcome := Some (Ok tt);
       after := s |}.
Proof.
  intros Herr Hc Hm.
  unfold LV3_realtime_httplog_streaming_ui.run_stream. cbn [consume].
  unfold LV3_realtime_httplog_streaming_ui.next at 1, respond_stream, resume.
  unfold bind at 1, chat_history_for_ml at 1.
  rewrite (exec_api_http_error _ _ _ _ Herr).
  cbn [api_truthy negb].
  unfold bind, lift, chat_history, chat_history_for_ml, ret,
    AISimpleResponse.make.
  rewrite Hc, Hm. reflexivity.
Qed.
End AuditSteps.

(** ** The call log of the streaming variant with audit *)

(** C7. Streaming with audit, successful call: every envelope of the
    sequence, however many there are, is an audit envelope with the call
    count one above the count that came in, the call history extended by
    the entry of this call, and the document rendered from that history;
    the three values are the same in all of them. *)
Theorem audit_values_shared
    requests_post self msg call_history call_log_md_display call_count s
    res_json :
  raise_for_status (response_to requests_post self msg s) = false ->
  json_body (response_to requests_post self msg s) = Some (PDict res_json) ->
  forall fuel e,
    In e (emitted (LV3_realtime_httplog_streaming_ui.run_stream
                     requests_post self fuel msg call_history
                     call_log_md_display call_count s)) ->
    exists c,
      e = LV3_realtime_httplog_streaming_ui.Custom c
      /\ AICustomResponse.call_count c = (call_count + 1)%Z
      /\ AICustomResponse.call_history c
         = call_history
           ++ create_http_log (call_count + 1) self
                (request_payload msg (s_chat_history_for_ml s))
                (PDict res_json)
                (Some (status_code (response_to requests_post self msg s)))
                (Some (reason (response_to requests_post self msg s)))
      /\ AICustomResponse.call_log_md_display c
         = format_http_log (AICustomResponse.call_history c).
Proof.
  intros Hs Hb fuel e Hin.
  destruct (run_stream_carries requests_post self msg call_history
              call_log_md_display call_count s res_json fuel e Hs Hb Hin)
    as (c & -> & Hh & Hd & Hn).
  exists c. rewrite Hh, Hd, Hn. repeat split.
Qed.

Lemma audit_values_shared_witness :
  exists c,
    nth 1 (emitted (LV3_realtime_httplog_streaming_ui.run_stream
                      (Sample.always (Sample.ok Sample.answer_ok))
                      Sample.app 3 (str "hi") [] [] 0 Sample.fresh))
      (LV3_realtime_httplog_streaming_ui.Simple
         (AISimpleResponse.Build [] [] []))
    = LV3_realtime_httplog_streaming_ui.Custom c
    /\ AICustomResponse.call_count c = 1%Z.
Proof.
  destruct (audit_values_shared (Sample.always (Sample.ok Sample.answer_ok))
              Sample.app (str "hi") [] [] 0 Sample.fresh
              [(str "answer", PStr (str "ok"))] eq_refl eq_refl 3
              (nth 1 (emitted (LV3_realtime_httplog_streaming_ui.run_stream
                                 (Sample.always (Sample.ok Sample.answer_ok))
                                 Sample.app 3 (str "hi") [] [] 0
                                 Sample.fresh))
                 (LV3_realtime_httplog_streaming_ui.Simple
                    (AISimpleResponse.Build [] [] []))))
    as (c & He & Hn & _).
  - vm_compute. right. left. reflexivity.
  - exists c. split; [exact He | exact Hn].
Defined.

(** C10. Streaming with audit, endpoint call fails with an HTTP error: the
    one envelope that is yielded is a plain envelope, without call
    history, call-log document and call count, whereas every envelope of a
    successful call is an audit envelope. *)
Theorem audit_failure_envelope_is_plain
    requests_post self msg call_history call_log_md_display call_count s fuel :
  raise_for_status (response_to requests_post self msg s) = true ->
  history_ok (s_chat_history s) = true ->
  history_ok (s_chat_history_for_ml s) = true ->
  LV3_realtime_httplog_streaming_ui.run_stream requests_post self
    (S (S fuel)) msg call_history call_log_md_display call_count s
  = {| emitted :=
         [LV3_realtime_httplog_streaming_ui.Simple
            (AISimpleResponse.Build []
               (s_chat_history s) (s_chat_history_for_ml s))];
       outcome := Some (Ok tt);
       after := s |}
  /\ (forall c,
      ~ In (LV3_realtime_httplog_streaming_ui.Custom c)
          (emitted (LV3_realtime_httplog_streaming_ui.run_stream
                      requests_post self (S (S fuel)) msg call_history
                      call_log_md_display call_count s)))
  /\ (forall requests_post' res_json fuel' e,
      raise_for_status (response_to requests_post' self msg s) = false ->
      json_body (response_to requests_post' self msg s)
      = Some (PDict res_json) ->
      In e (emitted (LV3_realtime_httplog_streaming_ui.run_stream
                       requests_post' self fuel' msg call_history
                       call_log_md_display call_count s)) ->
      exists c, e = LV3_realtime_httplog_streaming_ui.Custom c).
Proof.
  intros Herr Hc Hm.
  rewrite (run_stream_http_error _ _ _ _ _ _ _ fuel Herr Hc Hm).
  split; [reflexivity|]. split.
  - intros c [H|[]]. discriminate H.
  - intros requests_post' res_json fuel' e Hs Hb Hin.
    destruct (run_stream_carries requests_post' self msg call_history
                call_log_md_display call_count s res_json fuel' e Hs Hb Hin)
      as (c & -> & _).
    eauto.
Qed.

Lemma audit_failure_envelope_is_plain_witness :
  LV3_realtime_httplog_streaming_ui.run_stream
    (Sample.always Sample.server_error) Sample.app 2 (str "hi") [] [] 0
    Sample.fresh
  = {| emitted :=
         [LV3_realtime_httplog_streaming_ui.Simple
            (AISimpleResponse.Build [] [] [])];
       outcome := Some (Ok tt);
       after := Sample.fresh |}.
Proof.
  exact (proj1
    (audit_failure_envelope_is_plain (Sample.always Sample.server_error)
       Sample.app (str "hi") [] [] 0 Sample.fresh 0
       eq_refl eq_refl eq_refl)).
Defined.

(** ** The credential and the call log *)

(** C8. The entry that [create_http_log] formats does not depend on the
    credential of the application object: the Authorization header is the
    fixed masked line, and two applications that differ in the bearer
    token only give the same entry and the same rendered document. *)
Theorem log_entry_masks_credential
    call_count app key key' jinput joutput res_status_code res_status_reason
    call_history :
  create_http_log call_count (with_endpoint_key app key) jinput joutput
    res_status_code res_status_reason
  = create_http_log call_count (with_endpoint_key app key') jinput joutput
      res_status_code res_status_reason
  /\ format_http_log
       (call_history
        ++ create_http_log call_count (with_endpoint_key app key) jinput
             joutput res_status_code res_status_reason)
     = format_http_log
         (call_history
          ++ create_http_log call_count (with_endpoint_key app key') jinput
               joutput res_status_code res_status_reason)
  /\ occurs masked_authorization
       (create_http_log call_count (with_endpoint_key app key) jinput joutput
          res_status_code res_status_reason).
Proof.
  split; [reflexivity|]. split; [reflexivity|].
  unfold create_http_log.
  repeat lazymatch goal with
         | |- occurs ?n (?n ++ _) => apply occurs_head
         | |- occurs _ (_ ++ _) => apply occurs_behind
         end.
Qed.

(** ** When the endpoint call fails *)

(** Streaming mode, HTTP error: one envelope with an empty message and the
    lists as they came in, then the end; the lists are not touched. *)
Lemma stream_http_error requests_post self msg s fuel :
  raise_for_status (response_to requests_post self msg s) = true ->
  history_ok (s_chat_history s) = true ->
  history_ok (s_chat_history_for_ml s) = true ->
  LV2_streaming_ui.run_stream requests_post self (S (S fuel)) msg s
  = {| emitted :=
         [AISimpleResponse.Build []
            (s_chat_history s) (s_chat_history_for_ml s)];
       outcome := Some (Ok tt);
       after := s |}.
Proof.
  intros Herr Hc Hm.
  unfold LV2_streaming_ui.run_stream. cbn [consume].
  unfold LV2_streaming_ui.next at 1, LV2_streaming_ui.respond_stream,
    LV2_streaming_ui.resume.
  unfold bind at 1, chat_history_for_ml at 1.
  rewrite (exec_api_http_error _ _ _ _ Herr).
  cbn [api_truthy negb].
  unfold bind, lift, chat_history, chat_history_for_ml, ret,
    AISimpleResponse.make.
  rewrite Hc, Hm. reflexivity.
Qed.

(** C1 (where the code departs from it). A success status with a body
    that cannot be decoded: [exec_api] returns the tuple
    [(None, None, None)], which is not falsy, so no method takes its
    failure branch; each goes on to call [.get] on [None] and
    [AttributeError] leaves the method.  No envelope is returned or
    yielded. *)
Theorem undecodable_body_raises
    requests_post self msg s fuel call_history call_log_md_display call_count :
  raise_for_status (response_to requests_post self msg s) = false ->
  json_body (response_to requests_post self msg s) = None ->
  LV1_nonstreaming_ui.respond_simple requests_post self msg s
  = (Raise AttributeError, s)
  /\ LV2_streaming_ui.run_stream requests_post self (S fuel) msg s
     = {| emitted := []; outcome := Some (Raise AttributeError); after := s |}
  /\ LV3_realtime_httplog_streaming_ui.run_stream requests_post self (S fuel)
       msg call_history call_log_md_display call_count s
     = {| emitted := []; outcome := Some (Raise AttributeError); after := s |}.
Proof.
  intros Hs Hb. repeat split.
  - unfold LV1_nonstreaming_ui.respond_simple.
    unfold bind at 1, chat_history_for_ml at 1.
    rewrite (exec_api_undecodable _ _ _ _ Hs Hb). reflexivity.
  - unfold LV2_streaming_ui.run_stream. cbn [consume].
    unfold LV2_streaming_ui.next at 1, LV2_streaming_ui.respond_stream,
      LV2_streaming_ui.resume.
    unfold bind at 1, chat_history_for_ml at 1.
    rewrite (exec_api_undecodable _ _ _ _ Hs Hb). reflexivity.
  - unfold LV3_realtime_httplog_streaming_ui.run_stream. cbn [consume].
    unfold LV3_realtime_httplog_streaming_ui.next at 1,
      LV3_realtime_httplog_streaming_ui.respond_stream,
      LV3_realtime_httplog_streaming_ui.resume.
    unfold bind at 1, chat_history_for_ml at 1.
    rewrite (exec_api_undecodable _ _ _ _ Hs Hb). reflexivity.
Qed.

Lemma undecodable_body_raises_witness :
  LV2_streaming_ui.run_stream (Sample.always Sample.garbled) Sample.app 1
    (str "hi") Sample.fresh
  = {| emitted := [];
       outcome := Some (Raise AttributeError);
       after := Sample.fresh |}.
Proof.
  exact (proj1 (proj2
    (undecodable_body_raises (Sample.always Sample.garbled) Sample.app
       (str "hi") Sample.fresh 0 [] [] 0 eq_refl eq_refl))).
Defined.

(** C2 (where the code departs from it). Atomic mode, HTTP error:
    [respond_simple] leaves the lists alone but returns [None] through its
    bare [return], not an envelope; the handler, which reads
    [response.bot_message], then raises [AttributeError]. *)
Theorem respond_simple_http_error_returns_None requests_post self msg s :
  raise_for_status (response_to requests_post self msg s) = true ->
  LV1_nonstreaming_ui.respond_simple requests_post self msg s = (Ok None, s)
  /\ LV1_nonstreaming_ui.handle_response requests_post self msg s
     = (Raise AttributeError, s).
Proof.
  intros Herr.
  assert (H : LV1_nonstreaming_ui.respond_simple requests_post self msg s
              = (Ok None, s)).
  { unfold LV1_nonstreaming_ui.respond_simple.
    unfold bind at 1, chat_history_for_ml at 1.
    rewrite (exec_api_http_error _ _ _ _ Herr). reflexivity. }
  split; [exact H|].
  unfold LV1_nonstreaming_ui.handle_response, bind. rewrite H. reflexivity.
Qed.

Lemma respond_simple_http_error_returns_None_witness :
  LV1_nonstreaming_ui.respond_simple (Sample.always Sample.server_error)
    Sample.app (str "hi") Sample.fresh
  = (Ok None, Sample.fresh).
Proof.
  exact (proj1
    (respond_simple_http_error_returns_None
       (Sample.always Sample.server_error) Sample.app (str "hi")
       Sample.fresh eq_refl)).
Defined.

(** ** The scenarios of the specification, run on the model *)

Example scenario_atomic_hi_ok :
  LV1_nonstreaming_ui.respond_simple
    (Sample.always (Sample.ok Sample.answer_ok)) Sample.app (str "hi")
    Sample.fresh
  = (Ok (Some (AISimpleResponse.Build []
                 [turn "user" (PStr (str "hi"));
                  turn "assistant" (PStr (str "ok"))]
                 [ml_turn (str "hi") (PStr (str "ok"))])),
     {| s_chat_history :=
          [turn "user" (PStr (str "hi"));
           turn "assistant" (PStr (str "ok"))];
        s_chat_history_for_ml := [ml_turn (str "hi") (PStr (str "ok"))] |}).
Proof. vm_compute. reflexivity. Qed.

Example scenario_stream_hi_ok :
  emitted (LV2_streaming_ui.run_stream
             (Sample.always (Sample.ok Sample.answer_ok)) Sample.app 3
             (str "hi") Sample.fresh)
  = [AISimpleResponse.Build []
       [turn "user" (PStr (str "hi")); turn "assistant" (PStr (str "o"))]
       [ml_turn (str "hi") (PStr (str "ok"))];
     AISimpleResponse.Build []
       [turn "user" (PStr (str "hi")); turn "assistant" (PStr (str "ok"))]
       [ml_turn (str "hi") (PStr (str "ok"))]].
Proof. vm_compute. reflexivity. Qed.

Example scenario_stream_500 :
  LV2_streaming_ui.run_stream (Sample.always Sample.server_error) Sample.app 2
    (str "hi") Sample.fresh
  = {| emitted := [AISimpleResponse.Build [] [] []];
       outcome := Some (Ok tt);
       after := Sample.fresh |}.
Proof. vm_compute. reflexivity. Qed.

Example scenario_empty_body :
  after (LV2_streaming_ui.run_stream
           (Sample.always (Sample.ok (PDict []))) Sample.app 8
           (str "hi") Sample.fresh)
  = {| s_chat_history :=
         [turn "user" (PStr (str "hi"));
          turn "assistant" (PStr (str "<EMPTY>"))];
       s_chat_history_for_ml :=
         [ml_turn (str "hi") (PStr (str "<EMPTY>"))] |}.
Proof. vm_compute. reflexivity. Qed.

(** A body that decodes to something other than a dict, here a list: the
    call counts as answered and [.get] fails on it. *)
Example scenario_list_body :
  LV2_streaming_ui.run_stream
    (Sample.always (Sample.ok (PList []))) Sample.app 1 (str "hi")
    Sample.fresh
  = {| emitted := [];
       outcome := Some (Raise AttributeError);
       after := Sample.fresh |}.
Proof. vm_compute. reflexivity. Qed.

(** The first call of a session, as the call log shows it. *)
Example scenario_call_log_mentions_no_key :
  create_http_log 1 Sample.app
    (request_payload (str "hi") []) Sample.answer_ok (Some 200%Z)
    (Some (str "OK"))
  = create_http_log 1 (with_endpoint_key Sample.app (str "another-key"))
      (request_payload (str "hi") []) Sample.answer_ok (Some 200%Z)
      (Some (str "OK")).
Proof. reflexivity. Qed.

(** A second turn: the earlier entries stay in front, in every envelope
    and in the lists. *)
Example scenario_second_turn :
  history_ok (s_chat_history Sample.one_turn) = true
  /\ map AISimpleResponse.chat_history
       (emitted (LV2_streaming_ui.run_stream
                   (Sample.always (Sample.ok Sample.answer_ok)) Sample.app 3
                   (str "hi") Sample.one_turn))
     = [s_chat_history Sample.one_turn
        ++ [turn "user" (PStr (str "hi"));
            turn "assistant" (PStr (str "o"))];
        s_chat_history Sample.one_turn
        ++ [turn "user" (PStr (str "hi"));
            turn "assistant" (PStr (str "ok"))]].
Proof. split; vm_compute; reflexivity. Qed.

(** The plain envelope of a failed call in LV3 is not what the handler of
    LV3 expects. *)
Example scenario_audit_500_handler :
  map LV3_realtime_httplog_streaming_ui.handle_response_fields
    (emitted (LV3_realtime_httplog_streaming_ui.run_stream
                (Sample.always Sample.server_error) Sample.app 2
                (str "hi") [] [] 0 Sample.fresh))
  = [Raise AttributeError].
Proof. vm_compute. reflexivity. Qed.

(** * Further properties of the code *)

(** ** Reading the environment *)

(** [get_env_variable] returns the value of a variable exactly when the
    variable is set to a non-empty string; a variable that is not set and
    a variable set to the empty string both give the [ValueError] that
    names the variable. *)
Theorem get_env_variable_spec getenv var_name :
  (forall v,
      get_env_variable getenv var_name = Returned v
      <-> getenv var_name = Some v /\ v <> [])
  /\ (forall message,
      get_env_variable getenv var_name = Raised message
      <-> (getenv var_name = None \/ getenv var_name = Some [])
          /\ message = not_set var_name).
Proof.
  unfold get_env_variable, not_value.
  destruct (getenv var_name) as [[|c v]|]; cbn; split; intros x; split;
    try (intros [= <-]); try (intros [[= <-] H]); try (intros [[[=]|[=]] ->]);
    try congruence; auto.
  - split; [reflexivity | discriminate].
Qed.

Section InitializerFacts.
Variable getenv : environ.
Variable X : Type.
Variable new_MLClient : pystr -> pystr -> pystr -> MLClient X.

Lemma get_env_variable_unusable var_name :
  unusable getenv var_name = true ->
  get_env_variable getenv var_name = Raised (not_set var_name).
Proof.
  unfold unusable, get_env_variable, not_value.
  destruct (getenv var_name) as [[|c v]|]; cbn; congruence.
Qed.

Lemma get_env_variable_usable var_name :
  unusable getenv var_name = false ->
  exists v,
    getenv var_name = Some v
    /\ get_env_variable getenv var_name = Returned v.
Proof.
  unfold unusable, get_env_variable, not_value.
  destruct (getenv var_name) as [[|c v]|]; cbn; try discriminate.
  intros _. eauto.
Qed.
End InitializerFacts.

(** [initialize_client] succeeds when each of the five variables is set
    to a non-empty string, and then hands the first three to the client's
    constructor and returns the other two as endpoint and deployment
    name. *)
Theorem initialize_client_succeeds getenv X
    (new_MLClient : pystr -> pystr -> pystr -> MLClient X) :
  forallb (fun v => negb (unusable getenv v)) required_variables = true ->
  exists sub_id rg_name ws_name endpoint_name deployment_name,
    getenv (str "SUBSCRIPTION_ID") = Some sub_id
    /\ getenv (str "RESOURCE_GROUP_NAME") = Some rg_name
    /\ getenv (str "WORKSPACE_NAME") = Some ws_name
    /\ getenv (str "ENDPOINT_NAME") = Some endpoint_name
    /\ getenv (str "DEPLOYMENT_NAME") = Some deployment_name
    /\ initialize_client getenv X new_MLClient
       = Returned (new_MLClient sub_id rg_name ws_name,
                   endpoint_name, deployment_name).
Proof.
  unfold required_variables. cbn [forallb].
  rewrite !andb_true_iff, !negb_true_iff.
  intros (H1 & H2 & H3 & H4 & H5 & _).
  apply get_env_variable_usable in H1 as (v1 & E1 & G1).
  apply get_env_variable_usable in H2 as (v2 & E2 & G2).
  apply get_env_variable_usable in H3 as (v3 & E3 & G3).
  apply get_env_variable_usable in H4 as (v4 & E4 & G4).
  apply get_env_variable_usable in H5 as (v5 & E5 & G5).
  exists v1, v2, v3, v4, v5.
  unfold initialize_client. rewrite G1, G2, G3, G4, G5. auto 10.
Qed.

(** When a variable is missing or empty, [initialize_client] raises the
    [ValueError] of the first such variable in the order
    SUBSCRIPTION_ID, RESOURCE_GROUP_NAME, WORKSPACE_NAME, ENDPOINT_NAME,
    DEPLOYMENT_NAME, whatever the later ones are. *)
Theorem initialize_client_reports_first getenv X
    (new_MLClient : pystr -> pystr -> pystr -> MLClient X) var_name :
  find (unusable getenv) required_variables = Some var_name ->
  initialize_client getenv X new_MLClient = Raised (not_set var_name).
Proof.
  unfold required_variables, initialize_client. cbn [find].
  repeat
    match goal with
    | |- context [unusable getenv ?v] =>
        let E := fresh "E" in
        destruct (unusable getenv v) eqn:E;
        [ intros [= <-]; rewrite (get_env_variable_unusable _ _ E);
          reflexivity
        | apply get_env_variable_usable in E as (? & _ & ->) ]
    end.
  discriminate.
Qed.

(** ** From the constructor to the request *)

(** When [BaseChatApp.__init__] returns, the three look-ups have
    succeeded (the deployment under the endpoint's name), and what
    [exec_api] then returns for a message is decided by the endpoint's
    response to one request: the POST to the endpoint's scoring URI, with
    the question and the ML history as payload, the bearer token taken
    from the primary key if the endpoint's authentication mode is exactly
    [key] and from the access token otherwise, and the deployment name in
    the [azureml-model-deployment] header. *)
Theorem init_then_request X (ml_client : MLClient X) urlparse
    endpoint_name deployment_name app :
  __init__ X ml_client urlparse endpoint_name deployment_name
  = Returned app ->
  exists endpoint keys,
    online_endpoints_get ml_client endpoint_name = Returned endpoint
    /\ online_endpoints_get_keys ml_client endpoint_name = Returned keys
    /\ online_deployments_get ml_client deployment_name endpoint_name
       = Returned tt
    /\ (protocol app, host app, path app) = urlparse (scoring_uri endpoint)
    /\ forall requests_post msg chat_history_for_ml,
        exec_api requests_post app msg chat_history_for_ml
        = let response :=
            requests_post (scoring_uri endpoint)
              (PDict [(str "question", PStr msg);
                      (str "chat_history", PList chat_history_for_ml)])
              [(str "Content-Type", str "application/json");
               (str "Authorization",
                str "Bearer "
                ++ (if pystr_eqb (auth_mode endpoint) (str "key")
                    then primary_key keys else access_token keys));
               (str "azureml-model-deployment", deployment_name);
               (str "Accept", str "application/json")] in
          if raise_for_status response then ApiNone
          else
            match json_body response with
            | Some body =>
                ApiTuple body (Some (status_code response))
                  (Some (reason response))
            | None => ApiTuple PNone None None
            end.
Proof.
  unfold __init__, setup_endpoint, setup_deployment.
  destruct (online_endpoints_get ml_client endpoint_name)
    as [endpoint|e]; [|discriminate].
  destruct (online_endpoints_get_keys ml_client endpoint_name)
    as [keys|e]; [|discriminate].
  destruct (urlparse (scoring_uri endpoint))
    as [[scheme netloc] url_path] eqn:U.
  destruct (online_deployments_get ml_client deployment_name endpoint_name)
    as [[]|e]; [|discriminate].
  intros [= <-]. exists endpoint, keys. rewrite U.
  do 4 (split; [reflexivity|]).
  intros requests_post msg ml. reflexivity.
Qed.

(** ** The consumer loop *)

Section ConsumerFacts.
Variables G E : Type.
Variable next : G -> session -> result (event E) * G * session.

(** A run that has ended is the same run with any more fuel. *)
Lemma consume_stable fuel :
  forall g s more,
    outcome (consume next fuel g s) <> None ->
    consume next (fuel + more) g s = consume next fuel g s.
Proof.
  induction fuel as [|fuel IH]; intros g s more; [cbn; congruence|].
  cbn [consume Nat.add].
  destruct (next g s) as [[[[e|]|x] g'] s']; cbn; try reflexivity.
  intros H. now rewrite (IH g' s' more H).
Qed.
End ConsumerFacts.

(** ** LV3 is LV2 plus the audit fields *)

Section SideBySide.
Variable requests_post : endpoint.
Variable self : BaseChatApp.

Lemma make_without_audit bot_message ch ml h d n :
  map_result without_audit
    (map_result LV3_realtime_httplog_streaming_ui.Custom
       (AICustomResponse.make bot_message ch ml h d n))
  = AISimpleResponse.make bot_message ch ml.
Proof.
  unfold AICustomResponse.make, AISimpleResponse.make.
  destruct (history_ok ch && history_ok ml); reflexivity.
Qed.

Lemma loop_same_place content items h d n s :
  LV2_streaming_ui.loop content items s
  = match LV3_realtime_httplog_streaming_ui.loop content items h d n s with
    | (Ok (ev, g), s') =>
        (Ok (map_event without_audit ev, same_place g), s')
    | (Raise e, s') => (Raise e, s')
    end.
Proof.
  destruct items as [|message rest]; [reflexivity|].
  unfold LV2_streaming_ui.loop, LV3_realtime_httplog_streaming_ui.loop,
    bind, lift, chat_history, chat_history_for_ml, ret.
  destruct (str_add content _) as [content'|]; [|reflexivity].
  unfold AICustomResponse.make, AISimpleResponse.make.
  destruct (history_ok _ && history_ok _); reflexivity.
Qed.

Lemma next_same_place g s :
  LV2_streaming_ui.next requests_post self (same_place g) s
  = match LV3_realtime_httplog_streaming_ui.next requests_post self g s with
    | (r, g', s') =>
        (map_result (map_event without_audit) r, same_place g', s')
    end.
Proof.
  unfold LV2_streaming_ui.next, LV3_realtime_httplog_streaming_ui.next.
  destruct g as [msg h d n| |content rest h d n|]; cbn [same_place];
    try reflexivity.
  - unfold LV2_streaming_ui.resume, LV3_realtime_httplog_streaming_ui.resume.
    unfold bind, lift, ret, raise, chat_history, chat_history_for_ml,
      chat_history_append, chat_history_for_ml_append.
    cbv beta iota.
    destruct (exec_api requests_post self msg (s_chat_history_for_ml s))
      as [|res_json code rsn]; cbn [api_truthy negb].
    + unfold AISimpleResponse.make.
      destruct (history_ok _ && history_ok _); reflexivity.
    + destruct (call_get res_json (str "answer") EMPTY) as [bot_message|];
        [|reflexivity].
      destruct (iter bot_message) as [items|]; [|reflexivity].
      cbn [s_chat_history s_chat_history_for_ml].
      match goal with
      | |- context [LV3_realtime_httplog_streaming_ui.loop ?a ?b ?c ?d ?e ?f] =>
          rewrite (loop_same_place a b c d e f);
          destruct (LV3_realtime_httplog_streaming_ui.loop a b c d e f)
            as [[[ev g']|x] s']
      end; reflexivity.
  - unfold LV2_streaming_ui.resume, LV3_realtime_httplog_streaming_ui.resume.
    rewrite (loop_same_place content rest h d n).
    destruct (LV3_realtime_httplog_streaming_ui.loop content rest h d n s)
      as [[[ev g']|x] s']; reflexivity.
Qed.

Lemma consume_same_place fuel :
  forall g s,
    consume (LV2_streaming_ui.next requests_post self) fuel (same_place g) s
    = map_run without_audit
        (consume (LV3_realtime_httplog_streaming_ui.next requests_post self)
           fuel g s).
Proof.
  induction fuel as [|fuel IH]; intros g s; [reflexivity|].
  cbn [consume]. rewrite next_same_place.
  destruct (LV3_realtime_httplog_streaming_ui.next requests_post self g s)
    as [[[[e|]|x] g'] s']; cbn [map_result map_event]; try reflexivity.
  rewrite IH. reflexivity.
Qed.
End SideBySide.

(** For every endpoint, message, incoming lists and audit values, and at
    every point of the run, the streaming front end with the call log
    does what the plain streaming front end does: the same envelopes once
    the audit fields are dropped, the same end (normal or the same
    exception) and the same lists. *)
Theorem audit_stream_refines_stream
    requests_post self fuel msg call_history call_log_md_display call_count s :
  map_run without_audit
    (LV3_realtime_httplog_streaming_ui.run_stream requests_post self fuel
       msg call_history call_log_md_display call_count s)
  = LV2_streaming_ui.run_stream requests_post self fuel msg s.
Proof.
  unfold LV3_realtime_httplog_streaming_ui.run_stream,
    LV2_streaming_ui.run_stream.
  symmetry.
  exact (consume_same_place requests_post self fuel
           (LV3_realtime_httplog_streaming_ui.respond_stream msg call_history
              call_log_md_display call_count) s).
Qed.

(** ** What a call does to the two lists *)

Section ListsAfter.
Import LV2_streaming_ui.
Variable requests_post : endpoint.
Variable self : BaseChatApp.

Local Abbreviation next := (LV2_streaming_ui.next requests_post self).
Local Abbreviation run_stream :=
  (LV2_streaming_ui.run_stream requests_post self).

Lemma consume_at_failure_yield fuel s :
  consume next (S fuel) AtFailureYield s
  = {| emitted := []; outcome := Some (Ok tt); after := s |}.
Proof. reflexivity. Qed.

(** The step out of [Created] when the call has failed with an HTTP
    error. *)
Lemma first_next_http_error msg s :
  raise_for_status (response_to requests_post self msg s) = true ->
  next (respond_stream msg) s
  = match AISimpleResponse.make []
            (s_chat_history s) (s_chat_history_for_ml s) with
    | Ok response => (Ok (Yielded response), AtFailureYield, s)
    | Raise e => (Raise e, Finished, s)
    end.
Proof.
  intros Herr.
  unfold LV2_streaming_ui.next, respond_stream, resume.
  unfold bind at 1, chat_history_for_ml at 1.
  rewrite (exec_api_http_error _ _ _ _ Herr).
  cbn [api_truthy negb].
  unfold bind, lift, chat_history, chat_history_for_ml, ret.
  destruct (AISimpleResponse.make _ _ _); reflexivity.
Qed.

(** The step out of [Created] when the body is not a dict. *)
Lemma first_next_not_dict msg s res_json code rsn :
  exec_api requests_post self msg (s_chat_history_for_ml s)
  = ApiTuple res_json code rsn ->
  (forall d, res_json <> PDict d) ->
  next (respond_stream msg) s = (Raise AttributeError, Finished, s).
Proof.
  intros Hexec Hnot.
  unfold LV2_streaming_ui.next, respond_stream, resume.
  unfold bind at 1, chat_history_for_ml at 1.
  rewrite Hexec. cbn [api_truthy negb].
  destruct res_json; try reflexivity.
  now destruct (Hnot d).
Qed.

Lemma run_stream_lists_after msg s fuel :
  after (run_stream (S fuel) msg s)
  = lists_after (response_to requests_post self msg s) msg s.
Proof.
  unfold lists_after.
  destruct (raise_for_status (response_to requests_post self msg s)) eqn:Hs.
  - unfold LV2_streaming_ui.run_stream. cbn [consume].
    rewrite (first_next_http_error msg s Hs).
    destruct (AISimpleResponse.make _ _ _); [|reflexivity].
    destruct fuel; reflexivity.
  - destruct (json_body (response_to requests_post self msg s))
      as [body|] eqn:Hb.
    + destruct body;
        try (unfold LV2_streaming_ui.run_stream; cbn [consume];
             rewrite (first_next_not_dict msg s _ _ _
                        (exec_api_decoded _ _ _ _ _ Hs Hb));
             [reflexivity | discriminate]).
      apply (run_stream_after _ _ _ _ _ Hs Hb).
    + unfold LV2_streaming_ui.run_stream. cbn [consume].
      rewrite (first_next_not_dict msg s _ _ _
                 (exec_api_undecodable _ _ _ _ Hs Hb));
        [reflexivity | discriminate].
Qed.

Lemma respond_simple_lists_after msg s :
  snd (LV1_nonstreaming_ui.respond_simple requests_post self msg s)
  = lists_after (response_to requests_post self msg s) msg s.
Proof.
  unfold lists_after, LV1_nonstreaming_ui.respond_simple.
  unfold bind at 1, chat_history_for_ml at 1.
  destruct (raise_for_status (response_to requests_post self msg s)) eqn:Hs.
  - rewrite (exec_api_http_error _ _ _ _ Hs). reflexivity.
  - destruct (json_body (response_to requests_post self msg s))
      as [body|] eqn:Hb.
    + rewrite (exec_api_decoded _ _ _ _ _ Hs Hb).
      cbn [api_truthy negb].
      destruct body; try reflexivity.
      cbn [call_get]. fold (answer_of d).
      unfold bind, lift, chat_history_append, chat_history_for_ml_append,
        chat_history, chat_history_for_ml, ret.
      cbn [s_chat_history s_chat_history_for_ml].
      rewrite <- app_assoc. cbn [app].
      fold (append_turn s msg (answer_of d)).
      destruct (AISimpleResponse.make _ _ _); reflexivity.
    + rewrite (exec_api_undecodable _ _ _ _ Hs Hb). reflexivity.
Qed.
End ListsAfter.

(** In all three front ends and for every response of the endpoint, the
    two lists after the call are determined by the response alone: they
    are untouched when the status is 4xx or 5xx, when the body is not
    JSON and when it is no JSON object, and they have gained exactly the
    user entry, the assistant entry and the ML entry when the body is a
    JSON object.  This holds whether or not the method then returns,
    yields or raises: nothing is rolled back and nothing is half done. *)
Theorem lists_after_call
    requests_post self msg s fuel call_history call_log_md_display call_count :
  snd (LV1_nonstreaming_ui.respond_simple requests_post self msg s)
  = lists_after (response_to requests_post self msg s) msg s
  /\ after (LV2_streaming_ui.run_stream requests_post self (S fuel) msg s)
     = lists_after (response_to requests_post self msg s) msg s
  /\ after (LV3_realtime_httplog_streaming_ui.run_stream requests_post self
              (S fuel) msg call_history call_log_md_display call_count s)
     = lists_after (response_to requests_post self msg s) msg s.
Proof.
  split; [apply respond_simple_lists_after|].
  split; [apply run_stream_lists_after|].
  rewrite <- (run_stream_lists_after requests_post self msg s fuel).
  rewrite <- (audit_stream_refines_stream requests_post self (S fuel) msg
                call_history call_log_md_display call_count s).
  reflexivity.
Qed.

(** ** Every stream ends *)

Section StreamEnds.
Import LV2_streaming_ui.
Variable requests_post : endpoint.
Variable self : BaseChatApp.

Local Abbreviation next := (LV2_streaming_ui.next requests_post self).
Local Abbreviation run_stream :=
  (LV2_streaming_ui.run_stream requests_post self).

(** A round of the loop uses up one item. *)
Lemma next_loop_item content message rest s ev g s' :
  next (AtLoopYield content (message :: rest)) s = (Ok (Yielded ev), g, s') ->
  exists content', g = AtLoopYield content' rest.
Proof.
  unfold LV2_streaming_ui.next, resume.
  unfold loop, bind, lift, chat_history, chat_history_for_ml, ret.
  destruct (str_add content _) as [content'|]; [|discriminate].
  destruct (AISimpleResponse.make _ _ _); [|discriminate].
  intros [= <- <- <-]. eauto.
Qed.

Lemma consume_loop_ends items :
  forall content s,
    outcome (consume next (S (length items)) (AtLoopYield content items) s)
    <> None.
Proof.
  induction items as [|message rest IH]; intros content s.
  - cbn. discriminate.
  - cbn [length]. cbn [consume].
    destruct (next (AtLoopYield content (message :: rest)) s)
      as [[[[ev|]|x] g] s'] eqn:E; cbn [outcome]; try discriminate.
    apply next_loop_item in E as (content' & ->).
    apply IH.
Qed.

Lemma run_stream_ends msg s :
  exists n, outcome (run_stream n msg s) <> None.
Proof.
  destruct (raise_for_status (response_to requests_post self msg s)) eqn:Hs.
  - exists 2. unfold LV2_streaming_ui.run_stream. cbn [consume].
    rewrite (first_next_http_error _ _ msg s Hs).
    destruct (AISimpleResponse.make _ _ _); cbn; discriminate.
  - destruct (json_body (response_to requests_post self msg s))
      as [body|] eqn:Hb.
    + destruct body;
        try (exists 1; unfold LV2_streaming_ui.run_stream; cbn [consume];
             rewrite (first_next_not_dict _ _ msg s _ _ _
                        (exec_api_decoded _ _ _ _ _ Hs Hb));
             [cbn; discriminate | discriminate]).
      destruct (iter (answer_of d)) as [items|x] eqn:Hi.
      * exists (S (length items)).
        rewrite (run_stream_unfold _ _ _ _ _ Hs Hb), Hi.
        apply consume_loop_ends.
      * exists 1. rewrite (run_stream_unfold _ _ _ _ _ Hs Hb), Hi.
        cbn. discriminate.
    + exists 1. unfold LV2_streaming_ui.run_stream. cbn [consume].
      rewrite (first_next_not_dict _ _ msg s _ _ _
                 (exec_api_undecodable _ _ _ _ Hs Hb));
        [cbn; discriminate | discriminate].
Qed.
End StreamEnds.

(** Whatever the endpoint answers, a streaming sequence is finite, in the
    plain front end and in the one with the call log: after some number
    of [next()] calls the generator has ended (normally or with an
    exception), and consuming further changes nothing in what was
    received, in how it ended and in the lists. *)
Theorem stream_always_ends
    requests_post self msg s call_history call_log_md_display call_count :
  exists n,
    forall fuel, n <= fuel ->
      outcome (LV2_streaming_ui.run_stream requests_post self fuel msg s)
      <> None
      /\ LV2_streaming_ui.run_stream requests_post self fuel msg s
         = LV2_streaming_ui.run_stream requests_post self n msg s
      /\ LV3_realtime_httplog_streaming_ui.run_stream requests_post self fuel
           msg call_history call_log_md_display call_count s
         = LV3_realtime_httplog_streaming_ui.run_stream requests_post self n
             msg call_history call_log_md_display call_count s.
Proof.
  destruct (run_stream_ends requests_post self msg s) as (n & Hn).
  exists n. intros fuel Hle.
  replace fuel with (n + (fuel - n)) by lia.
  assert (H2 : LV2_streaming_ui.run_stream requests_post self
                 (n + (fuel - n)) msg s
               = LV2_streaming_ui.run_stream requests_post self n msg s).
  { apply consume_stable. exact Hn. }
  rewrite H2. split; [exact Hn|]. split; [reflexivity|].
  apply consume_stable.
  rewrite <- (audit_stream_refines_stream requests_post self n msg
                call_history call_log_md_display call_count s) in Hn.
  exact Hn.
Qed.

(** ** The message field of an envelope *)

Section EmptyMessage.
Import LV2_streaming_ui.
Variable requests_post : endpoint.
Variable self : BaseChatApp.

Local Abbreviation next := (LV2_streaming_ui.next requests_post self).

Lemma make_bot_message bot_message ch ml r :
  AISimpleResponse.make bot_message ch ml = Ok r ->
  AISimpleResponse.bot_message r = bot_message.
Proof.
  unfold AISimpleResponse.make.
  destruct (history_ok ch && history_ok ml); [|discriminate].
  now intros [= <-].
Qed.

Lemma next_yields_empty_message g s e g' s' :
  next g s = (Ok (Yielded e), g', s') ->
  AISimpleResponse.bot_message e = [].
Proof.
  unfold LV2_streaming_ui.next.
  destruct g as [msg| |content items|]; cbn [resume]; try discriminate.
  - unfold bind, lift, ret, raise, chat_history, chat_history_for_ml,
      chat_history_append, chat_history_for_ml_append.
    cbv beta iota.
    destruct (exec_api requests_post self msg (s_chat_history_for_ml s))
      as [|res_json code rsn]; cbn [api_truthy negb].
    + destruct (AISimpleResponse.make _ _ _) as [r|] eqn:E; [|discriminate].
      intros [= <- _ _]. exact (make_bot_message _ _ _ _ E).
    + destruct (call_get res_json (str "answer") EMPTY) as [bot_message|];
        [|discriminate].
      destruct (iter bot_message) as [[|message rest]|]; try discriminate.
      unfold loop, bind, lift, chat_history, chat_history_for_ml, ret.
      destruct (str_add [] _); [|discriminate].
      destruct (AISimpleResponse.make _ _ _) as [r|] eqn:E; [|discriminate].
      intros [= <- _ _]. exact (make_bot_message _ _ _ _ E).
  - destruct items as [|message rest]; [discriminate|].
    unfold loop, bind, lift, chat_history, chat_history_for_ml, ret.
    destruct (str_add content _); [|discriminate].
    destruct (AISimpleResponse.make _ _ _) as [r|] eqn:E; [|discriminate].
    intros [= <- _ _]. exact (make_bot_message _ _ _ _ E).
Qed.

Lemma consume_empty_message fuel :
  forall g s e,
    In e (emitted (consume next fuel g s)) ->
    AISimpleResponse.bot_message e = [].
Proof.
  induction fuel as [|fuel IH]; intros g s e; [intros []|].
  cbn [consume].
  destruct (next g s) as [[[[ev|]|x] g'] s'] eqn:E; cbn; try tauto.
  intros [<- | Hin].
  - exact (next_yields_empty_message _ _ _ _ _ E).
  - exact (IH _ _ _ Hin).
Qed.

Lemma respond_simple_empty_message msg s r s' :
  LV1_nonstreaming_ui.respond_simple requests_post self msg s
  = (Ok (Some r), s') ->
  AISimpleResponse.bot_message r = [].
Proof.
  unfold LV1_nonstreaming_ui.respond_simple.
  unfold bind, lift, ret, raise, chat_history, chat_history_for_ml,
    chat_history_append, chat_history_for_ml_append.
  cbv beta iota.
  destruct (exec_api requests_post self msg (s_chat_history_for_ml s))
    as [|res_json code rsn]; cbn [api_truthy negb]; [discriminate|].
  destruct (call_get res_json (str "answer") EMPTY) as [bot_message|];
    [|discriminate].
  destruct (AISimpleResponse.make _ _ _) as [r0|] eqn:E; [|discriminate].
  intros [= <- _]. exact (make_bot_message _ _ _ _ E).
Qed.
End EmptyMessage.

(** No front end ever puts text into the message field: every envelope
    that [respond_simple] returns or a stream yields, for any response of
    the endpoint, has the empty string as [bot_message]; the answer
    reaches the user through the display history only. *)
Theorem bot_message_always_empty requests_post self msg s :
  (forall r s',
      LV1_nonstreaming_ui.respond_simple requests_post self msg s
      = (Ok (Some r), s') ->
      AISimpleResponse.bot_message r = [])
  /\ (forall fuel e,
      In e (emitted (LV2_streaming_ui.run_stream requests_post self
                       fuel msg s)) ->
      AISimpleResponse.bot_message e = [])
  /\ (forall fuel call_history call_log_md_display call_count e,
      In e (emitted (LV3_realtime_httplog_streaming_ui.run_stream
                       requests_post self fuel msg call_history
                       call_log_md_display call_count s)) ->
      AISimpleResponse.bot_message (without_audit e) = []).
Proof.
  split; [|split].
  - intros r s'. apply respond_simple_empty_message.
  - intros fuel e. apply consume_empty_message.
  - intros fuel h d n e Hin.
    apply (consume_empty_message requests_post self fuel
             (LV2_streaming_ui.respond_stream msg) s).
    fold (LV2_streaming_ui.run_stream requests_post self fuel msg s).
    rewrite <- (audit_stream_refines_stream requests_post self fuel msg
                  h d n s).
    cbn [map_run emitted]. now apply in_map.
Qed.

(** ** Answers that are not strings *)

(** A JSON object whose [answer] is [null], a boolean or a number: both
    streaming front ends put the turn on the lists and then raise
    [TypeError] at the [for] loop, without having yielded anything. *)
Theorem scalar_answer_stops_stream
    requests_post self msg s res_json fuel
    call_history call_log_md_display call_count :
  raise_for_status (response_to requests_post self msg s) = false ->
  json_body (response_to requests_post self msg s) = Some (PDict res_json) ->
  scalar (answer_of res_json) = true ->
  LV2_streaming_ui.run_stream requests_post self (S fuel) msg s
  = {| emitted := [];
       outcome := Some (Raise TypeError);
       after := append_turn s msg (answer_of res_json) |}
  /\ LV3_realtime_httplog_streaming_ui.run_stream requests_post self (S fuel)
       msg call_history call_log_md_display call_count s
     = {| emitted := [];
          outcome := Some (Raise TypeError);
          after := append_turn s msg (answer_of res_json) |}.
Proof.
  intros Hs Hb Hsc.
  assert (H2 : LV2_streaming_ui.run_stream requests_post self (S fuel) msg s
               = {| emitted := [];
                    outcome := Some (Raise TypeError);
                    after := append_turn s msg (answer_of res_json) |}).
  { rewrite (run_stream_unfold _ _ _ _ _ Hs Hb).
    destruct (answer_of res_json); try discriminate; reflexivity. }
  split; [exact H2|].
  rewrite <- (audit_stream_refines_stream requests_post self (S fuel) msg
                call_history call_log_md_display call_count s) in H2.
  destruct (LV3_realtime_httplog_streaming_ui.run_stream requests_post self
              (S fuel) msg call_history call_log_md_display call_count s)
    as [em out aft].
  unfold map_run in H2. cbn [emitted outcome after] in H2.
  injection H2 as Hem -> ->.
  apply map_eq_nil in Hem. now subst em.
Qed.

Lemma scalar_answer_stops_stream_witness :
  LV2_streaming_ui.run_stream
    (Sample.always (Sample.ok (PDict [(str "answer", PNone)])))
    Sample.app 1 (str "hi") Sample.fresh
  = {| emitted := [];
       outcome := Some (Raise TypeError);
       after := append_turn Sample.fresh (str "hi") PNone |}.
Proof.
  exact (proj1
    (scalar_answer_stops_stream
       (Sample.always (Sample.ok (PDict [(str "answer", PNone)])))
       Sample.app (str "hi") Sample.fresh [(str "answer", PNone)] 0 [] [] 0
       eq_refl eq_refl eq_refl)).
Defined.

(** ** The atomic front end on a JSON object *)

Lemma history_ok_last l x : history_ok (l ++ [x]) = history_ok l && entry_ok x.
Proof. rewrite history_ok_app. cbn. now rewrite andb_true_r. Qed.

(** When the body is a JSON object, [respond_simple] has put the turn on
    both lists in any case; it returns the envelope with the two lists
    exactly when the incoming entries and the answer fit the envelope's
    annotation (the answer a string or a dict), and raises
    [ValidationError] otherwise, with the lists already changed. *)
Theorem respond_simple_on_object requests_post self msg s res_json :
  raise_for_status (response_to requests_post self msg s) = false ->
  json_body (response_to requests_post self msg s) = Some (PDict res_json) ->
  LV1_nonstreaming_ui.respond_simple requests_post self msg s
  = (if history_ok (s_chat_history s)
        && history_ok (s_chat_history_for_ml s)
        && field_ok (answer_of res_json)
     then Ok (Some (AISimpleResponse.Build []
                      (s_chat_history
                         (append_turn s msg (answer_of res_json)))
                      (s_chat_history_for_ml
                         (append_turn s msg (answer_of res_json)))))
     else Raise ValidationError,
     append_turn s msg (answer_of res_json)).
Proof.
  intros Hs Hb.
  unfold LV1_nonstreaming_ui.respond_simple.
  unfold bind at 1, chat_history_for_ml at 1.
  rewrite (exec_api_decoded _ _ _ _ _ Hs Hb).
  cbn [api_truthy negb call_get].
  fold (answer_of res_json).
  unfold bind, lift, chat_history_append, chat_history_for_ml_append,
    chat_history, chat_history_for_ml, ret.
  cbn [s_chat_history s_chat_history_for_ml].
  rewrite <- app_assoc. cbn [app].
  unfold AISimpleResponse.make, append_turn.
  cbn [s_chat_history s_chat_history_for_ml].
  change (s_chat_history s
          ++ [turn "user" (PStr msg); turn "assistant" (answer_of res_json)])
    with (s_chat_history s
          ++ [turn "user" (PStr msg)]
          ++ [turn "assistant" (answer_of res_json)]).
  rewrite app_assoc, !history_ok_last.
  cbn [entry_ok turn ml_turn forallb snd field_ok].
  destruct (history_ok (s_chat_history s)),
    (history_ok (s_chat_history_for_ml s)),
    (field_ok (answer_of res_json)); reflexivity.
Qed.

Lemma respond_simple_on_object_witness :
  LV1_nonstreaming_ui.respond_simple
    (Sample.always (Sample.ok (PDict [(str "answer", PInt 5)])))
    Sample.app (str "hi") Sample.fresh
  = (Raise ValidationError, append_turn Sample.fresh (str "hi") (PInt 5)).
Proof.
  exact (respond_simple_on_object
           (Sample.always (Sample.ok (PDict [(str "answer", PInt 5)])))
           Sample.app (str "hi") Sample.fresh [(str "answer", PInt 5)]
           eq_refl eq_refl).
Defined.

(** ** Streaming arrives where the atomic front end arrives *)

(** For a successful call with a non-empty string answer, the last
    envelope of the stream is the envelope that [respond_simple] returns
    for the same input, and both leave the same lists. *)
Theorem stream_ends_at_atomic_result
    requests_post self msg s res_json answer fuel :
  raise_for_status (response_to requests_post self msg s) = false ->
  json_body (response_to requests_post self msg s) = Some (PDict res_json) ->
  answer_of res_json = PStr answer ->
  answer <> [] ->
  history_ok (s_chat_history s) = true ->
  history_ok (s_chat_history_for_ml s) = true ->
  length answer < fuel ->
  LV1_nonstreaming_ui.respond_simple requests_post self msg s
  = (Ok (last
           (map Some
              (emitted (LV2_streaming_ui.run_stream requests_post self
                          fuel msg s)))
           None),
     after (LV2_streaming_ui.run_stream requests_post self fuel msg s)).
Proof.
  intros Hs Hb Ha Hne Hc Hm Hfuel.
  destruct fuel as [|fuel]; [lia|].
  rewrite (respond_simple_returns _ _ _ _ _ Hs Hb _ Ha Hc Hm).
  rewrite (run_stream_trace _ _ _ _ _ Hs Hb _ Ha Hc Hm).
  cbn [emitted after].
  replace (Nat.min (S fuel) (length answer)) with (length answer) by lia.
  destruct (length answer) as [|n] eqn:Hlen.
  - destruct answer; [congruence | discriminate].
  - rewrite seq_S, !map_app. cbn [map]. rewrite last_last.
    unfold reveal, append_turn. cbn [s_chat_history s_chat_history_for_ml app].
    rewrite firstn_all2 by (rewrite Hlen; cbn; lia).
    rewrite <- app_assoc. reflexivity.
Qed.

Lemma stream_ends_at_atomic_result_witness :
  LV1_nonstreaming_ui.respond_simple
    (Sample.always (Sample.ok Sample.answer_ok)) Sample.app (str "hi")
    Sample.fresh
  = (Ok (last
           (map Some
              (emitted (LV2_streaming_ui.run_stream
                          (Sample.always (Sample.ok Sample.answer_ok))
                          Sample.app 3 (str "hi") Sample.fresh)))
           None),
     after (LV2_streaming_ui.run_stream
              (Sample.always (Sample.ok Sample.answer_ok))
              Sample.app 3 (str "hi") Sample.fresh)).
Proof.
  apply (stream_ends_at_atomic_result
           (Sample.always (Sample.ok Sample.answer_ok)) Sample.app
           (str "hi") Sample.fresh [(str "answer", PStr (str "ok"))]
           (str "ok") 3);
    try reflexivity; [discriminate | cbn; lia].
Defined.

(** ** What the call log shows of a message *)

Lemma occurs_front (needle text behind : pystr) :
  occurs needle text -> occurs needle (text ++ behind).
Proof.
  intros (before & rest & ->).
  exists before, (rest ++ behind). now rewrite <- !app_assoc.
Qed.

Lemma occurs_trans (a b c : pystr) : occurs a b -> occurs b c -> occurs a c.
Proof.
  intros (b1 & b2 & ->) (c1 & c2 & ->).
  exists (c1 ++ b1), (b2 ++ c2). now rewrite <- !app_assoc.
Qed.

Lemma escape_plain c : json_plain c = true -> Json.escape_char c = [c].
Proof.
  unfold json_plain, Json.escape_char.
  rewrite negb_true_iff, !orb_false_iff.
  intros [[H34 H92] H32]. rewrite H34, H92, H32.
  apply N.ltb_ge in H32.
  repeat match goal with
         | |- context [N.eqb c ?k] =>
             destruct (N.eqb_spec c k); [subst c; lia|]
         end.
  reflexivity.
Qed.

Lemma encode_plain_string s :
  forallb json_plain s = true -> flat_map Json.escape_char s = s.
Proof.
  induction s as [|c s IH]; [reflexivity|].
  cbn [forallb flat_map]. rewrite andb_true_iff. intros [Hc Hs].
  now rewrite (escape_plain c Hc), (IH Hs).
Qed.

Lemma question_in_payload msg ml :
  forallb json_plain msg = true ->
  occurs msg (Json.dumps (request_payload msg ml)).
Proof.
  intros Hplain.
  unfold Json.dumps, request_payload. cbn [Json.encode].
  do 4 apply occurs_behind. apply occurs_front.
  unfold Json.encode_string. rewrite (encode_plain_string msg Hplain).
  apply occurs_behind, occurs_head.
Qed.

Lemma payload_in_log_entry call_count _cls jinput joutput code rsn :
  occurs (Json.dumps jinput)
    (create_http_log call_count _cls jinput joutput code rsn).
Proof.
  unfold create_http_log.
  repeat lazymatch goal with
         | |- occurs ?n (?n ++ _) => apply occurs_head
         | |- occurs _ (_ ++ _) => apply occurs_behind
         end.
Qed.

(** [create_http_log] does no HTML escaping: a message made of characters
    that JSON leaves as they are (no double quote, backslash or control
    character; angle brackets and ampersands are among them) stands in
    the log entry of its call, and so in the rendered document, character
    for character. *)
Theorem log_entry_shows_message_verbatim
    call_count _cls msg chat_history_for_ml joutput res_status_code
    res_status_reason call_history :
  forallb json_plain msg = true ->
  occurs msg
    (create_http_log call_count _cls
       (request_payload msg chat_history_for_ml) joutput res_status_code
       res_status_reason)
  /\ occurs msg
       (format_http_log
          (call_history
           ++ create_http_log call_count _cls
                (request_payload msg chat_history_for_ml) joutput
                res_status_code res_status_reason)).
Proof.
  intros Hplain.
  assert (H : occurs msg
                (create_http_log call_count _cls
                   (request_payload msg chat_history_for_ml) joutput
                   res_status_code res_status_reason)).
  { eapply occurs_trans;
      [apply (question_in_payload msg chat_history_for_ml Hplain)
      | apply payload_in_log_entry]. }
  split; [exact H|].
  unfold format_http_log.
  apply occurs_behind, occurs_front, occurs_behind. exact H.
Qed.

Lemma log_entry_shows_message_verbatim_witness :
  occurs (str "<b>hi</b>")
    (create_http_log 1 Sample.app (request_payload (str "<b>hi</b>") [])
       Sample.answer_ok (Some 200%Z) (Some (str "OK"))).
Proof.
  exact (proj1
    (log_entry_shows_message_verbatim 1 Sample.app (str "<b>hi</b>") []
       Sample.answer_ok (Some 200%Z) (Some (str "OK")) [] eq_refl)).
Defined.

(** The rendered document holds the call history between fixed text, so
    two call histories give the same document only if they are the same
    history. *)
Theorem format_http_log_injective call_history call_history' :
  format_http_log call_history = format_http_log call_history'
  <-> call_history = call_history'.
Proof.
  split; [|now intros ->].
  unfold format_http_log. intros H.
  apply app_inv_head in H. now apply app_inv_tail in H.
Qed.

(** ** A conversation in the atomic front end *)

Lemma handle_response_histories requests_post self msg s text ch ml s1 :
  LV1_nonstreaming_ui.handle_response requests_post self msg s
  = (Ok (text, ch, ml), s1) ->
  exists answer,
    ch = s_chat_history s
         ++ [turn "user" (PStr msg); turn "assistant" answer]
    /\ ml = s_chat_history_for_ml s ++ [ml_turn msg answer].
Proof.
  unfold LV1_nonstreaming_ui.handle_response,
    LV1_nonstreaming_ui.respond_simple.
  unfold bind, lift, ret, raise, chat_history, chat_history_for_ml,
    chat_history_append, chat_history_for_ml_append.
  cbv beta iota.
  destruct (exec_api requests_post self msg (s_chat_history_for_ml s))
    as [|res_json code rsn]; cbn [api_truthy negb]; [discriminate|].
  destruct (call_get res_json (str "answer") EMPTY) as [bot_message|];
    [|discriminate].
  cbn [s_chat_history s_chat_history_for_ml].
  unfold AISimpleResponse.make.
  destruct (history_ok _ && history_ok _); [|discriminate].
  cbn. intros [= _ <- <- _]. exists bot_message.
  now rewrite <- app_assoc.
Qed.

(** A run of submitted messages in the atomic front end in which no call
    raised: the lists are the lists of the start followed, in order, by
    one user entry and one assistant entry per message on the display
    log and one entry per message on the ML log, each ML entry pairing
    the message with the answer shown for it; a display log twice as
    long as the ML log stays so. *)
Theorem conversation_keeps_logs_in_step requests_post self msgs :
  forall s s',
    submit_all requests_post self msgs s = Ok s' ->
    exists answers,
      length answers = length msgs
      /\ s_chat_history s'
         = s_chat_history s ++ display_turns (combine msgs answers)
      /\ s_chat_history_for_ml s'
         = s_chat_history_for_ml s ++ ml_turns (combine msgs answers)
      /\ (length (s_chat_history s) = 2 * length (s_chat_history_for_ml s) ->
          length (s_chat_history s')
          = 2 * length (s_chat_history_for_ml s')).
Proof.
  induction msgs as [|msg rest IH]; intros s s'.
  - intros [= <-]. exists []. cbn. rewrite !app_nil_r. auto.
  - cbn [submit_all].
    destruct (LV1_nonstreaming_ui.handle_response requests_post self msg s)
      as [[[[text ch] ml]|e] s1] eqn:E; [|discriminate].
    apply handle_response_histories in E as (answer & -> & ->).
    intros H. apply IH in H as (answers & Hlen & Hch & Hml & Hinv).
    cbn [s_chat_history s_chat_history_for_ml] in *.
    exists (answer :: answers). cbn [length combine display_turns ml_turns
                                       flat_map map fst snd app].
    split; [now rewrite Hlen|].
    split; [rewrite Hch, <- app_assoc; reflexivity|].
    split; [rewrite Hml, <- app_assoc; reflexivity|].
    intros H0. apply Hinv. rewrite !length_app. cbn [length]. lia.
Qed.

Lemma conversation_keeps_logs_in_step_witness :
  exists answers,
    length answers = length [str "hi"; str "again"]
    /\ s_chat_history
         (append_turn (append_turn Sample.fresh (str "hi") (PStr (str "ok")))
            (str "again") (PStr (str "ok")))
       = s_chat_history Sample.fresh
         ++ display_turns (combine [str "hi"; str "again"] answers)
    /\ s_chat_history_for_ml
         (append_turn (append_turn Sample.fresh (str "hi") (PStr (str "ok")))
            (str "again") (PStr (str "ok")))
       = s_chat_history_for_ml Sample.fresh
         ++ ml_turns (combine [str "hi"; str "again"] answers)
    /\ (length (s_chat_history Sample.fresh)
        = 2 * length (s_chat_history_for_ml Sample.fresh) ->
        length (s_chat_history
                  (append_turn
                     (append_turn Sample.fresh (str "hi") (PStr (str "ok")))
                     (str "again") (PStr (str "ok"))))
        = 2 * length (s_chat_history_for_ml
                        (append_turn
                           (append_turn Sample.fresh (str "hi")
                              (PStr (str "ok")))
                           (str "again") (PStr (str "ok"))))).
Proof.
  apply (conversation_keeps_logs_in_step
           (Sample.always (Sample.ok Sample.answer_ok)) Sample.app
           [str "hi"; str "again"] Sample.fresh).
  vm_compute. reflexivity.
Defined.

(** ** Start-up on concrete inputs *)

Lemma initialize_client_succeeds_witness :
  exists sub_id rg_name ws_name endpoint_name deployment_name,
    StartupSample.complete (str "SUBSCRIPTION_ID") = Some sub_id
    /\ StartupSample.complete (str "RESOURCE_GROUP_NAME") = Some rg_name
    /\ StartupSample.complete (str "WORKSPACE_NAME") = Some ws_name
    /\ StartupSample.complete (str "ENDPOINT_NAME") = Some endpoint_name
    /\ StartupSample.complete (str "DEPLOYMENT_NAME") = Some deployment_name
    /\ initialize_client StartupSample.complete unit
         StartupSample.new_MLClient
       = Returned (StartupSample.new_MLClient sub_id rg_name ws_name,
                   endpoint_name, deployment_name).
Proof.
  apply (initialize_client_succeeds StartupSample.complete unit
           StartupSample.new_MLClient).
  vm_compute. reflexivity.
Defined.

Lemma initialize_client_reports_first_witness :
  initialize_client StartupSample.incomplete unit StartupSample.new_MLClient
  = Raised (not_set (str "WORKSPACE_NAME")).
Proof.
  apply (initialize_client_reports_first StartupSample.incomplete unit
           StartupSample.new_MLClient (str "WORKSPACE_NAME")).
  vm_compute. reflexivity.
Defined.

Lemma init_then_request_witness :
  exists endpoint keys,
    online_endpoints_get StartupSample.workspace (str "chat-endpoint")
    = Returned endpoint
    /\ online_endpoints_get_keys StartupSample.workspace (str "chat-endpoint")
       = Returned keys
    /\ online_deployments_get StartupSample.workspace (str "blue")
         (str "chat-endpoint") = Returned tt
    /\ (protocol Sample.app, host Sample.app, path Sample.app)
       = StartupSample.urlparse (scoring_uri endpoint)
    /\ forall requests_post msg chat_history_for_ml,
        exec_api requests_post Sample.app msg chat_history_for_ml
        = let response :=
            requests_post (scoring_uri endpoint)
              (PDict [(str "question", PStr msg);
                      (str "chat_history", PList chat_history_for_ml)])
              [(str "Content-Type", str "application/json");
               (str "Authorization",
                str "Bearer "
                ++ (if pystr_eqb (auth_mode endpoint) (str "key")
                    then primary_key keys else access_token keys));
               (str "azureml-model-deployment", str "blue");
               (str "Accept", str "application/json")] in
          if raise_for_status response then ApiNone
          else
            match json_body response with
            | Some body =>
                ApiTuple body (Some (status_code response))
                  (Some (reason response))
            | None => ApiTuple PNone None None
            end.
Proof.
  apply (init_then_request unit StartupSample.workspace
           StartupSample.urlparse (str "chat-endpoint") (str "blue")
           Sample.app).
  vm_compute. reflexivity.
Defined.
